(** * terragrunt-atlantis-config: locals extraction, include resolution, merge

    A shallow embedding of [cmd/parse_locals.go] and of the prior-output
    reader [readOldConfig], followed by the properties of the design
    document that concern them.

    Go values are modelled the way the code uses them:
    - [string] is a Rocq [string]; the zero value is the empty string;
    - [*bool] is [option bool] ([None] is the nil pointer);
    - a [[]string] that the code compares with nil (the three requirement
      lists) is [option (list string)]: [None] is the nil slice and [Some l]
      a non-nil slice holding [l] (so [Some []] is [[]string{}]);
    - the [[]string] that the code only appends to
      ([ExtraAtlantisDependencies]) is the [list string] of its elements;
    - a Go panic is an explicit [Panic] outcome, an [error] result a value. *)

From Stdlib Require Import Ascii String.
From stdpp Require Import base option list strings gmap.
From Equations Require Import Equations.

Set Default Proof Using "Type".
Local Open Scope string_scope.

(** ** Go slices of strings *)

Module Slice.

Definition t : Type := option (list string).

(** The nil slice. *)
Definition nil : t := None.

(** [s != nil] *)
Definition non_nil (s : t) : bool :=
  match s with Some _ => true | None => false end.

(** The elements a [range] over the slice visits; [s...] spreads them. *)
Definition elems (s : t) : list string :=
  match s with Some l => l | None => [] end.

(** [len(s)] *)
Definition len (s : t) : nat := length (elems s).

(** [append(s, xs...)]: appending nothing returns [s] itself (a nil slice
    stays nil); appending something to a nil slice allocates. *)
Definition append (s : t) (xs : list string) : t :=
  match s, xs with
  | None, [] => None
  | None, _ :: _ => Some xs
  | Some l, _ => Some (l ++ xs)%list
  end.

End Slice.

(** ** ResolvedLocals *)

Record ResolvedLocals : Type := mkResolvedLocals {
  BranchProject : string;
  DeleteSourceBranchOnMergeProject : option bool;
  AtlantisWorkflow : string;
  PlanRequirements : Slice.t;
  ApplyRequirements : Slice.t;
  ImportRequirements : Slice.t;
  ExtraAtlantisDependencies : list string;
  AutoPlan : option bool;
  RepoLocking : option bool;
  Skip : option bool;
  TerraformVersion : string;
  markedProject : option bool
}.

(** [ResolvedLocals{}]: every field at its zero value. *)
Definition zeroLocals : ResolvedLocals :=
  {| BranchProject := "";
     DeleteSourceBranchOnMergeProject := None;
     AtlantisWorkflow := "";
     PlanRequirements := Slice.nil;
     ApplyRequirements := Slice.nil;
     ImportRequirements := Slice.nil;
     ExtraAtlantisDependencies := [];
     AutoPlan := None;
     RepoLocking := None;
     Skip := None;
     TerraformVersion := "";
     markedProject := None |}.

(** The three guards [mergeResolvedLocals] uses, one per field type. *)

(** [s != ""] *)
Definition str_set (s : string) : bool := negb (String.eqb s "").

(** [p != nil] *)
Definition ptr_set (p : option bool) : bool :=
  match p with Some _ => true | None => false end.

(** [s != nil || len(s) > 0] *)
Definition slice_set (s : Slice.t) : bool :=
  Slice.non_nil s || (0 <? Slice.len s)%nat.

(** Field assignments [r.F = v]. *)

Definition set_BranchProject (v : string) (r : ResolvedLocals) : ResolvedLocals :=
  mkResolvedLocals v (DeleteSourceBranchOnMergeProject r) (AtlantisWorkflow r)
    (PlanRequirements r) (ApplyRequirements r) (ImportRequirements r)
    (ExtraAtlantisDependencies r) (AutoPlan r) (RepoLocking r) (Skip r)
    (TerraformVersion r) (markedProject r).

Definition set_DeleteSourceBranchOnMergeProject (v : option bool)
    (r : ResolvedLocals) : ResolvedLocals :=
  mkResolvedLocals (BranchProject r) v (AtlantisWorkflow r)
    (PlanRequirements r) (ApplyRequirements r) (ImportRequirements r)
    (ExtraAtlantisDependencies r) (AutoPlan r) (RepoLocking r) (Skip r)
    (TerraformVersion r) (markedProject r).

Definition set_AtlantisWorkflow (v : string) (r : ResolvedLocals) : ResolvedLocals :=
  mkResolvedLocals (BranchProject r) (DeleteSourceBranchOnMergeProject r) v
    (PlanRequirements r) (ApplyRequirements r) (ImportRequirements r)
    (ExtraAtlantisDependencies r) (AutoPlan r) (RepoLocking r) (Skip r)
    (TerraformVersion r) (markedProject r).

Definition set_PlanRequirements (v : Slice.t) (r : ResolvedLocals) : ResolvedLocals :=
  mkResolvedLocals (BranchProject r) (DeleteSourceBranchOnMergeProject r)
    (AtlantisWorkflow r) v (ApplyRequirements r) (ImportRequirements r)
    (ExtraAtlantisDependencies r) (AutoPlan r) (RepoLocking r) (Skip r)
    (TerraformVersion r) (markedProject r).

Definition set_ApplyRequirements (v : Slice.t) (r : ResolvedLocals) : ResolvedLocals :=
  mkResolvedLocals (BranchProject r) (DeleteSourceBranchOnMergeProject r)
    (AtlantisWorkflow r) (PlanRequirements r) v (ImportRequirements r)
    (ExtraAtlantisDependencies r) (AutoPlan r) (RepoLocking r) (Skip r)
    (TerraformVersion r) (markedProject r).

Definition set_ImportRequirements (v : Slice.t) (r : ResolvedLocals) : ResolvedLocals :=
  mkResolvedLocals (BranchProject r) (DeleteSourceBranchOnMergeProject r)
    (AtlantisWorkflow r) (PlanRequirements r) (ApplyRequirements r) v
    (ExtraAtlantisDependencies r) (AutoPlan r) (RepoLocking r) (Skip r)
    (TerraformVersion r) (markedProject r).

Definition set_ExtraAtlantisDependencies (v : list string)
    (r : ResolvedLocals) : ResolvedLocals :=
  mkResolvedLocals (BranchProject r) (DeleteSourceBranchOnMergeProject r)
    (AtlantisWorkflow r) (PlanRequirements r) (ApplyRequirements r)
    (ImportRequirements r) v (AutoPlan r) (RepoLocking r) (Skip r)
    (TerraformVersion r) (markedProject r).

Definition set_AutoPlan (v : option bool) (r : ResolvedLocals) : ResolvedLocals :=
  mkResolvedLocals (BranchProject r) (DeleteSourceBranchOnMergeProject r)
    (AtlantisWorkflow r) (PlanRequirements r) (ApplyRequirements r)
    (ImportRequirements r) (ExtraAtlantisDependencies r) v (RepoLocking r)
    (Skip r) (TerraformVersion r) (markedProject r).

Definition set_RepoLocking (v : option bool) (r : ResolvedLocals) : ResolvedLocals :=
  mkResolvedLocals (BranchProject r) (DeleteSourceBranchOnMergeProject r)
    (AtlantisWorkflow r) (PlanRequirements r) (ApplyRequirements r)
    (ImportRequirements r) (ExtraAtlantisDependencies r) (AutoPlan r) v
    (Skip r) (TerraformVersion r) (markedProject r).

Definition set_Skip (v : option bool) (r : ResolvedLocals) : ResolvedLocals :=
  mkResolvedLocals (BranchProject r) (DeleteSourceBranchOnMergeProject r)
    (AtlantisWorkflow r) (PlanRequirements r) (ApplyRequirements r)
    (ImportRequirements r) (ExtraAtlantisDependencies r) (AutoPlan r)
    (RepoLocking r) v (TerraformVersion r) (markedProject r).

Definition set_TerraformVersion (v : string) (r : ResolvedLocals) : ResolvedLocals :=
  mkResolvedLocals (BranchProject r) (DeleteSourceBranchOnMergeProject r)
    (AtlantisWorkflow r) (PlanRequirements r) (ApplyRequirements r)
    (ImportRequirements r) (ExtraAtlantisDependencies r) (AutoPlan r)
    (RepoLocking r) (Skip r) v (markedProject r).

Definition set_markedProject (v : option bool) (r : ResolvedLocals) : ResolvedLocals :=
  mkResolvedLocals (BranchProject r) (DeleteSourceBranchOnMergeProject r)
    (AtlantisWorkflow r) (PlanRequirements r) (ApplyRequirements r)
    (ImportRequirements r) (ExtraAtlantisDependencies r) (AutoPlan r)
    (RepoLocking r) (Skip r) (TerraformVersion r) v.

(** ** mergeResolvedLocals

    The code assigns into its by-value [parent] argument, one guarded
    assignment per field in the order below, and returns it. *)
Definition mergeResolvedLocals (parent child : ResolvedLocals) : ResolvedLocals :=
  let parent :=
    if str_set (BranchProject child)
    then set_BranchProject (BranchProject child) parent else parent in
  let parent :=
    if ptr_set (DeleteSourceBranchOnMergeProject child)
    then set_DeleteSourceBranchOnMergeProject
           (DeleteSourceBranchOnMergeProject child) parent
    else parent in
  let parent :=
    if str_set (AtlantisWorkflow child)
    then set_AtlantisWorkflow (AtlantisWorkflow child) parent else parent in
  let parent :=
    if str_set (TerraformVersion child)
    then set_TerraformVersion (TerraformVersion child) parent else parent in
  let parent :=
    if ptr_set (AutoPlan child)
    then set_AutoPlan (AutoPlan child) parent else parent in
  let parent :=
    if ptr_set (RepoLocking child)
    then set_RepoLocking (RepoLocking child) parent else parent in
  let parent :=
    if ptr_set (Skip child) then set_Skip (Skip child) parent else parent in
  let parent :=
    if ptr_set (markedProject child)
    then set_markedProject (markedProject child) parent else parent in
  let parent :=
    if slice_set (PlanRequirements child)
    then set_PlanRequirements (PlanRequirements child) parent else parent in
  let parent :=
    if slice_set (ApplyRequirements child)
    then set_ApplyRequirements (ApplyRequirements child) parent else parent in
  let parent :=
    if slice_set (ImportRequirements child)
    then set_ImportRequirements (ImportRequirements child) parent else parent in
  set_ExtraAtlantisDependencies
    (ExtraAtlantisDependencies parent ++ ExtraAtlantisDependencies child)%list
    parent.

(** ** Outcomes: a call either returns or panics *)

Inductive outcome (A : Type) : Type :=
| Returned (a : A)
| Panic (recovered : string).
Arguments Returned {A} a.
Arguments Panic {A} recovered.

#[global] Instance outcome_ret : MRet outcome := fun A a => Returned a.
#[global] Instance outcome_bind : MBind outcome := fun A B f m =>
  match m with
  | Returned a => f a
  | Panic v => Panic v
  end.

(** A [for] loop over [l] threading an accumulator; a panic in the body
    leaves the loop. *)
Fixpoint foldM {A B : Type} (body : B -> A -> outcome B) (l : list A)
    (acc : B) : outcome B :=
  match l with
  | [] => Returned acc
  | x :: l' => acc' ← body acc x; foldM body l' acc'
  end.

(** ** The evaluated values of go-cty

    The fragment of [cty.Value] that evaluated locals consist of: known,
    non-null strings, booleans, numbers, lists and tuples, objects and maps.
    [NilVal] is [cty.NilVal], the zero [Value]. The attributes of an object
    are listed in the order its element iterator visits them. *)
#[local] Unset Elimination Schemes.
Inductive Value : Type :=
| NilVal
| VString (s : string)
| VBool (b : bool)
| VNumber (n : Z)
| VList (vs : list Value)
| VObject (attrs : list (string * Value)).
#[local] Set Elimination Schemes.

(** [v == cty.NilVal] *)
Definition isNilVal (v : Value) : bool :=
  match v with NilVal => true | _ => false end.

(** [v.AsString()]: panics unless [v] is a string. *)
Definition AsString (v : Value) : outcome string :=
  match v with
  | VString s => Returned s
  | _ => Panic "not a string"
  end.

(** [v.True()]: panics unless [v] is a boolean. *)
Definition True_ (v : Value) : outcome bool :=
  match v with
  | VBool b => Returned b
  | _ => Panic "not bool"
  end.

(** [v.ElementIterator()] run to its end, keeping the element of each step:
    panics unless [v] is a collection. *)
Definition ElementIterator (v : Value) : outcome (list Value) :=
  match v with
  | VList vs => Returned vs
  | VObject attrs => Returned (attrs.*2)
  | _ => Panic "value is not iterable"
  end.

(** [v.AsValueMap()]: a collection of length zero gives the nil map; the
    keys are converted with [AsString], which panics on the number keys of a
    list or tuple; [LengthInt] panics on a value that is not a collection. *)
Definition AsValueMap (v : Value) : outcome (gmap string Value) :=
  match v with
  | VList [] => Returned ∅
  | VList (_ :: _) => Panic "not a string"
  | VObject attrs => Returned (list_to_map attrs)
  | _ => Panic "value is not a collection"
  end.

(** ** Paths ([path/filepath]) *)

Section Filepath.

(** [os.PathSeparator]: a slash on Unix, a backslash on Windows. *)
Variable Separator : ascii.

(** [os.IsPathSeparator] *)
Definition IsPathSeparator (c : ascii) : bool :=
  Ascii.eqb c Separator || Ascii.eqb c "/"%char.

Fixpoint replaceSeparator (path : string) : string :=
  match path with
  | EmptyString => EmptyString
  | String c rest =>
      String (if Ascii.eqb c Separator then "/"%char else c)
             (replaceSeparator rest)
  end.

(** [filepath.ToSlash] *)
Definition ToSlash (path : string) : string :=
  if Ascii.eqb Separator "/"%char then path else replaceSeparator path.

(** The loop of [filepath.Ext], which walks [path] from its last byte
    down to the first separator and returns the suffix that starts at the
    first dot it meets; [suffix] holds the bytes already passed. *)
Fixpoint extLoop (reversed : list ascii) (suffix : list ascii) : list ascii :=
  match reversed with
  | [] => []
  | c :: before =>
      if IsPathSeparator c then []
      else if Ascii.eqb c "."%char then c :: suffix
      else extLoop before (c :: suffix)
  end.

(** [filepath.Ext] *)
Definition Ext (path : string) : string :=
  string_of_list_ascii (extLoop (rev (list_ascii_of_string path)) []).

End Filepath.

(** ** resolveLocals *)

Section Extractor.

Variable Separator : ascii.

(** The loop
    [it := c.ElementIterator(); for it.Next() { _, val := it.Element(); ... val.AsString() ... }]
    whose body updates [acc] with the string of each element. *)
Definition forElements {B : Type} (collection : Value) (acc : B)
    (body : B -> string -> B) : outcome B :=
  it ← ElementIterator collection;
  foldM (fun acc val => str ← AsString val; mret (body acc str)) it acc.

Definition resolveLocals (localsAsCty : Value) : outcome ResolvedLocals :=
  let resolved := zeroLocals in
  (* Return an empty set of locals if no `locals` block was present *)
  if isNilVal localsAsCty then mret resolved else
  rawLocals ← AsValueMap localsAsCty;
  resolved ←
    match rawLocals !! "atlantis_branch" with
    | Some branchProjectValue =>
        s ← AsString branchProjectValue; mret (set_BranchProject s resolved)
    | None => mret resolved
    end;
  resolved ←
    match rawLocals !! "atlantis_delete_source_branch_on_merge" with
    | Some deleteSourceBranchOnMergeProjectValue =>
        hasValue ← True_ deleteSourceBranchOnMergeProjectValue;
        mret (set_DeleteSourceBranchOnMergeProject (Some hasValue) resolved)
    | None => mret resolved
    end;
  resolved ←
    match rawLocals !! "atlantis_workflow" with
    | Some workflowValue =>
        s ← AsString workflowValue; mret (set_AtlantisWorkflow s resolved)
    | None => mret resolved
    end;
  resolved ←
    match rawLocals !! "atlantis_terraform_version" with
    | Some versionValue =>
        s ← AsString versionValue; mret (set_TerraformVersion s resolved)
    | None => mret resolved
    end;
  resolved ←
    match rawLocals !! "atlantis_autoplan" with
    | Some autoPlanValue =>
        hasValue ← True_ autoPlanValue;
        mret (set_AutoPlan (Some hasValue) resolved)
    | None => mret resolved
    end;
  resolved ←
    match rawLocals !! "atlantis_repo_locking" with
    | Some repoLockingValue =>
        hasValue ← True_ repoLockingValue;
        mret (set_RepoLocking (Some hasValue) resolved)
    | None => mret resolved
    end;
  resolved ←
    match rawLocals !! "atlantis_skip" with
    | Some skipValue =>
        hasValue ← True_ skipValue; mret (set_Skip (Some hasValue) resolved)
    | None => mret resolved
    end;
  resolved ←
    match rawLocals !! "atlantis_plan_requirements" with
    | Some planReqs =>
        reqs ← forElements planReqs (Some [])
                 (fun reqs str => Slice.append reqs [str]);
        mret (set_PlanRequirements reqs resolved)
    | None => mret resolved
    end;
  resolved ←
    match rawLocals !! "atlantis_apply_requirements" with
    | Some applyReqs =>
        reqs ← forElements applyReqs (Some [])
                 (fun reqs str => Slice.append reqs [str]);
        mret (set_ApplyRequirements reqs resolved)
    | None => mret resolved
    end;
  resolved ←
    match rawLocals !! "atlantis_immport_requirements" with
    | Some importReqs =>
        reqs ← forElements importReqs (Some [])
                 (fun reqs str => Slice.append reqs [str]);
        mret (set_ImportRequirements reqs resolved)
    | None => mret resolved
    end;
  resolved ←
    match rawLocals !! "atlantis_project" with
    | Some markedProject =>
        hasValue ← True_ markedProject;
        mret (set_markedProject (Some hasValue) resolved)
    | None => mret resolved
    end;
  resolved ←
    match rawLocals !! "extra_atlantis_dependencies" with
    | Some extraDependenciesAsCty =>
        deps ← forElements extraDependenciesAsCty
                 (ExtraAtlantisDependencies resolved)
                 (fun deps str => deps ++ [ToSlash Separator str])%list;
        mret (set_ExtraAtlantisDependencies deps resolved)
    | None => mret resolved
    end;
  mret resolved.

End Extractor.

(** ** Errors and the collaborators of parseLocals *)

Inductive Severity : Type := DiagError | DiagWarning.

(** [hcl.Diagnostic] *)
Record Diagnostic : Type := mkDiagnostic {
  DiagSeverity : Severity;
  Summary : string
}.

(** [hcl.Diagnostics.HasErrors] *)
Definition HasErrors (diags : list Diagnostic) : bool :=
  existsb (fun d => match DiagSeverity d with DiagError => true | _ => false end)
          diags.

(** The [error] values that travel through this code. *)
Inductive error : Type :=
| DiagnosticsError (diags : list Diagnostic)
| PanicWhileParsingConfig (RecoveredValue : string) (ConfigFile : string)
| ExternalError (msg : string).

(** [config.IncludeConfig] *)
Record IncludeConfig : Type := mkIncludeConfig {
  Name : string;
  Path : string
}.

(** [config.TrackInclude] *)
Record TrackInclude : Type := mkTrackInclude {
  CurrentList : list IncludeConfig;
  Original : option IncludeConfig
}.

(** What the code calls and does not define: the platform's separator, the
    file reader of terragrunt's [util], the HCL parser and terragrunt's
    [config.DecodeBaseBlocks]. A Go result tuple is a Rocq tuple, a pointer
    an option, the [error] interface an [option error]. The parser may
    panic; [parseHcl] recovers from it. *)
Class Collaborators : Type := {
  Separator : ascii;
  File : Type;
  ReadFileAsString : string -> string * option error;
  ParseHCL : string -> string -> outcome (option File * list Diagnostic);
  ParseJSON : string -> string -> outcome (option File * list Diagnostic);
  DecodeBaseBlocks :
    option File -> string -> option IncludeConfig ->
    option Value * option TrackInclude * option error
}.

(** The recursion of [parseLocals] only starts from a call without
    [includeFromChild] and always passes one. *)
Definition includeDepth (includeFromChild : option IncludeConfig) : nat :=
  match includeFromChild with
  | None => 1
  | Some _ => 0
  end.

Section ParseLocals.

Context `{Collaborators}.

(** [parseHcl]: the deferred function turns a panic of the parser into a
    [PanicWhileParsingConfig] error. *)
Definition parseHcl (hcl : string) (filename : string)
    : option File * option error :=
  let parsed :=
    if String.eqb (Ext Separator filename) ".json"
    then ParseJSON hcl filename
    else ParseHCL hcl filename in
  match parsed with
  | Panic recovered =>
      (None, Some (PanicWhileParsingConfig recovered filename))
  | Returned (file, parseDiagnostics) =>
      if HasErrors parseDiagnostics
      then (None, Some (DiagnosticsError parseDiagnostics))
      else (file, None)
  end.

(** [*localsAsCty]: dereferencing a nil pointer panics. *)
Definition deref (localsAsCty : option Value) : outcome Value :=
  match localsAsCty with
  | Some v => Returned v
  | None => Panic "invalid memory address or nil pointer dereference"
  end.

(** [parseLocals]. The options and the parser object that the code hands
    on unchanged are left out. *)
Equations parseLocals (path : string)
    (includeFromChild : option IncludeConfig)
    : outcome (ResolvedLocals * option error)
    by wf (includeDepth includeFromChild) lt :=
parseLocals path includeFromChild with ReadFileAsString path := {
  | (_, Some err) := mret (zeroLocals, Some err);
  | (configString, None) with parseHcl configString path := {
    | (_, Some err) := mret (zeroLocals, Some err);
    | (file, None) with DecodeBaseBlocks file path includeFromChild := {
      | (_, _, Some err) := mret (zeroLocals, Some err);
      | (localsAsCty, trackInclude, None)
          with trackInclude, includeFromChild := {
        | Some tracked, None :=
            (* Recurse on the parent to merge in the locals from that file *)
            mergedParentLocals ←
              foldM (fun mergedParentLocals includeConfig =>
                       '(parentLocals, _) ←
                         parseLocals (Path includeConfig) (Some includeConfig);
                       mret (mergeResolvedLocals mergedParentLocals parentLocals))
                    (CurrentList tracked) zeroLocals;
            cty ← deref localsAsCty;
            childLocals ← resolveLocals Separator cty;
            mret (mergeResolvedLocals mergedParentLocals childLocals, None);
        | _, _ :=
            let mergedParentLocals := zeroLocals in
            cty ← deref localsAsCty;
            childLocals ← resolveLocals Separator cty;
            mret (mergeResolvedLocals mergedParentLocals childLocals, None)
        }}}}.

(** The first three steps of [parseLocals], up to the decoded base
    blocks of the file at [path]: the locals, the tracked includes and
    the first error met. *)
Definition decodeFile (path : string) (includeFromChild : option IncludeConfig)
    : option Value * option TrackInclude * option error :=
  match ReadFileAsString path with
  | (_, Some err) => (None, None, Some err)
  | (configString, None) =>
      match parseHcl configString path with
      | (_, Some err) => (None, None, Some err)
      | (file, None) => DecodeBaseBlocks file path includeFromChild
      end
  end.

(** The includes the loop of [parseLocals] visits:
    [trackInclude != nil && includeFromChild == nil] guards it. *)
Definition followedIncludes (trackInclude : option TrackInclude)
    (includeFromChild : option IncludeConfig) : list IncludeConfig :=
  match trackInclude, includeFromChild with
  | Some tracked, None => CurrentList tracked
  | _, _ => []
  end.

(** The record extracted from the locals that the file at [path] decodes
    to. *)
Definition extractedFrom (path : string)
    (includeFromChild : option IncludeConfig) : outcome ResolvedLocals :=
  cty ← deref (decodeFile path includeFromChild).1.1;
  resolveLocals Separator cty.

(** What the loop of [parseLocals] merges for an include: the record
    extracted from the file at [path] alone, its own includes not followed,
    and the empty record when the file cannot be read, parsed or decoded. *)
Definition ownRecord (path : string) (includeFromChild : option IncludeConfig)
    : outcome ResolvedLocals :=
  match decodeFile path includeFromChild with
  | (_, _, Some _) => mret zeroLocals
  | (localsAsCty, _, None) =>
      cty ← deref localsAsCty; resolveLocals Separator cty
  end.

End ParseLocals.

(** ** Example configurations

    A file system given as a table from paths to sources, and the
    collaborators that serve it. *)

Inductive Source : Type :=
| Broken (summary : string)
| Config (locals : Value) (includes : list IncludeConfig).

Fixpoint sourceAt (fs : list (string * Source)) (path : string) : option Source :=
  match fs with
  | [] => None
  | (p, src) :: fs' => if String.eqb p path then Some src else sourceAt fs' path
  end.

(** The text of the file at [path] is [path] itself and a parsed file is its
    name. A [Broken] source fails to parse. With [rejectNested] the decoder
    refuses an include block in a file that is itself included, as
    terragrunt's does; without it the decoder reports the nested includes. *)
Definition servedFrom (rejectNested : bool) (fs : list (string * Source))
    : Collaborators :=
  {| Separator := "/"%char;
     File := string;
     ReadFileAsString path :=
       match sourceAt fs path with
       | Some _ => (path, None)
       | None => ("", Some (ExternalError "no such file or directory"))
       end;
     ParseHCL hcl filename :=
       match sourceAt fs filename with
       | Some (Broken summary) =>
           Returned (None, [mkDiagnostic DiagError summary])
       | _ => Returned (Some filename, [])
       end;
     ParseJSON hcl filename := Panic "unexpected end of JSON input";
     DecodeBaseBlocks file path includeFromChild :=
       match sourceAt fs path with
       | Some (Config locals includes) =>
           match includes, includeFromChild with
           | _ :: _, Some _ =>
               if rejectNested
               then (None, None, Some (ExternalError "TooManyLevelsOfInheritance"))
               else (Some locals, Some (mkTrackInclude includes includeFromChild), None)
           | _, _ =>
               (Some locals, Some (mkTrackInclude includes includeFromChild), None)
           end
       | _ => (None, None, Some (ExternalError "cannot decode"))
       end |}.

Definition includeOf (path : string) : IncludeConfig := mkIncludeConfig "" path.

(** A chain of three modules: [c] includes [b], [b] includes [a]; only [a]
    declares a workflow. *)
Definition chainFs : list (string * Source) :=
  [("a/terragrunt.hcl",
    Config (VObject [("atlantis_workflow", VString "prod")]) []);
   ("b/terragrunt.hcl",
    Config (VObject [("atlantis_autoplan", VBool true)])
           [includeOf "a/terragrunt.hcl"]);
   ("c/terragrunt.hcl",
    Config (VObject [("atlantis_skip", VBool false)])
           [includeOf "b/terragrunt.hcl"])].

(** A module that includes itself. *)
Definition selfIncludeFs : list (string * Source) :=
  [("a/terragrunt.hcl",
    Config (VObject [("atlantis_workflow", VString "prod")])
           [includeOf "a/terragrunt.hcl"])].

(** Two modules that include each other. *)
Definition mutualIncludeFs : list (string * Source) :=
  [("a/terragrunt.hcl",
    Config (VObject [("atlantis_workflow", VString "prod")])
           [includeOf "b/terragrunt.hcl"]);
   ("b/terragrunt.hcl",
    Config (VObject [("atlantis_autoplan", VBool true)])
           [includeOf "a/terragrunt.hcl"])].

(** A child whose parent does not parse. *)
Definition brokenParentFs : list (string * Source) :=
  [("root.hcl", Broken "Invalid expression");
   ("child/terragrunt.hcl",
    Config (VObject [("atlantis_skip", VBool false)]) [includeOf "root.hcl"])].

(** A child with two includes, both declaring a workflow. *)
Definition siblingsFs : list (string * Source) :=
  [("naming.hcl",
    Config (VObject [("atlantis_workflow", VString "naming");
                     ("atlantis_terraform_version", VString "1.5.0");
                     ("extra_atlantis_dependencies", VList [VString "../shared"])])
           []);
   ("state.hcl",
    Config (VObject [("atlantis_workflow", VString "state");
                     ("atlantis_plan_requirements", VList [VString "approved"])])
           []);
   ("app/terragrunt.hcl",
    Config (VObject [("atlantis_plan_requirements", VList []);
                     ("extra_atlantis_dependencies", VList [VString "../other"])])
           [includeOf "naming.hcl"; includeOf "state.hcl"])].

(** A module whose skip flag holds a string. *)
Definition stringFlagFs : list (string * Source) :=
  [("root.hcl",
    Config (VObject [("atlantis_workflow", VString "prod")]) []);
   ("app/terragrunt.hcl",
    Config (VObject [("atlantis_skip", VString "yes")])
           [includeOf "root.hcl"])].

(** The include edges of a configuration: [path] declares an include of
    [target]. *)
Definition includes `{Collaborators} (path target : string) : Prop :=
  exists localsAsCty tracked includeConfig,
    decodeFile path None = (localsAsCty, Some tracked, None) /\
    includeConfig ∈ CurrentList tracked /\
    Path includeConfig = target.

(** [path] lies on an include cycle. *)
Definition onIncludeCycle `{Collaborators} (path : string) : Prop :=
  tc includes path path.

(** ** The fields that [mergeResolvedLocals] replaces *)

Inductive ReplaceField : Type :=
| FBranchProject
| FDeleteSourceBranchOnMergeProject
| FAtlantisWorkflow
| FTerraformVersion
| FAutoPlan
| FRepoLocking
| FSkip
| FMarkedProject
| FPlanRequirements
| FApplyRequirements
| FImportRequirements.

(** The value of a field, by its Go type. *)
Inductive FieldValue : Type :=
| StringValue (s : string)
| BoolPointer (p : option bool)
| StringSlice (s : Slice.t).

Definition field (f : ReplaceField) (r : ResolvedLocals) : FieldValue :=
  match f with
  | FBranchProject => StringValue (BranchProject r)
  | FDeleteSourceBranchOnMergeProject =>
      BoolPointer (DeleteSourceBranchOnMergeProject r)
  | FAtlantisWorkflow => StringValue (AtlantisWorkflow r)
  | FTerraformVersion => StringValue (TerraformVersion r)
  | FAutoPlan => BoolPointer (AutoPlan r)
  | FRepoLocking => BoolPointer (RepoLocking r)
  | FSkip => BoolPointer (Skip r)
  | FMarkedProject => BoolPointer (markedProject r)
  | FPlanRequirements => StringSlice (PlanRequirements r)
  | FApplyRequirements => StringSlice (ApplyRequirements r)
  | FImportRequirements => StringSlice (ImportRequirements r)
  end.

(** A field is set when the guard of [mergeResolvedLocals] for its type
    lets the child's value through. *)
Definition isSet (v : FieldValue) : bool :=
  match v with
  | StringValue s => str_set s
  | BoolPointer p => ptr_set p
  | StringSlice s => slice_set s
  end.

(** The value that prevails when [vs] are merged in this order onto [v0]:
    the last one that is set. *)
Definition lastSet (v0 : FieldValue) (vs : list FieldValue) : FieldValue :=
  fold_left (fun acc v => if isSet v then v else acc) vs v0.

(** ** The blocks of [resolveLocals]

    Each [if ok { ... }] block of [resolveLocals] looks one key up and
    assigns one field; there are four kinds. *)

Definition stringBlock (set : string -> ResolvedLocals -> ResolvedLocals)
    (key : string) (rawLocals : gmap string Value) (resolved : ResolvedLocals)
    : outcome ResolvedLocals :=
  match rawLocals !! key with
  | Some v => s ← AsString v; mret (set s resolved)
  | None => mret resolved
  end.

Definition boolBlock (set : option bool -> ResolvedLocals -> ResolvedLocals)
    (key : string) (rawLocals : gmap string Value) (resolved : ResolvedLocals)
    : outcome ResolvedLocals :=
  match rawLocals !! key with
  | Some v => hasValue ← True_ v; mret (set (Some hasValue) resolved)
  | None => mret resolved
  end.

Definition requirementsBlock (set : Slice.t -> ResolvedLocals -> ResolvedLocals)
    (key : string) (rawLocals : gmap string Value) (resolved : ResolvedLocals)
    : outcome ResolvedLocals :=
  match rawLocals !! key with
  | Some v =>
      reqs ← forElements v (Some []) (fun reqs str => Slice.append reqs [str]);
      mret (set reqs resolved)
  | None => mret resolved
  end.

Definition dependenciesBlock (Separator : ascii) (key : string)
    (rawLocals : gmap string Value) (resolved : ResolvedLocals)
    : outcome ResolvedLocals :=
  match rawLocals !! key with
  | Some v =>
      deps ← forElements v (ExtraAtlantisDependencies resolved)
                (fun deps str => deps ++ [ToSlash Separator str])%list;
      mret (set_ExtraAtlantisDependencies deps resolved)
  | None => mret resolved
  end.

(** The strings of a collection, when all its elements are strings. *)
Definition stringsOf (collection : Value) : option (list string) :=
  match ElementIterator collection with
  | Returned it =>
      mapM (fun val => match val with VString s => Some s | _ => None end) it
  | Panic _ => None
  end.

(** What a key has to hold for its block not to panic. *)
Definition holdsString (v : option Value) : bool :=
  match v with Some (VString _) | None => true | _ => false end.

Definition holdsBool (v : option Value) : bool :=
  match v with Some (VBool _) | None => true | _ => false end.

Definition holdsStrings (v : option Value) : bool :=
  match v with
  | Some collection => bool_decide (is_Some (stringsOf collection))
  | None => true
  end.

Definition conforming (rawLocals : gmap string Value) : bool :=
  holdsString (rawLocals !! "atlantis_branch")
  && holdsBool (rawLocals !! "atlantis_delete_source_branch_on_merge")
  && holdsString (rawLocals !! "atlantis_workflow")
  && holdsString (rawLocals !! "atlantis_terraform_version")
  && holdsBool (rawLocals !! "atlantis_autoplan")
  && holdsBool (rawLocals !! "atlantis_repo_locking")
  && holdsBool (rawLocals !! "atlantis_skip")
  && holdsStrings (rawLocals !! "atlantis_plan_requirements")
  && holdsStrings (rawLocals !! "atlantis_apply_requirements")
  && holdsStrings (rawLocals !! "atlantis_immport_requirements")
  && holdsBool (rawLocals !! "atlantis_project")
  && holdsStrings (rawLocals !! "extra_atlantis_dependencies").

(** The value each kind of block leaves in its field. *)
Definition stringAt (rawLocals : gmap string Value) (key : string) : string :=
  match rawLocals !! key with Some (VString s) => s | _ => "" end.

Definition boolAt (rawLocals : gmap string Value) (key : string) : option bool :=
  match rawLocals !! key with Some (VBool b) => Some b | _ => None end.

Definition requirementsAt (rawLocals : gmap string Value) (key : string) : Slice.t :=
  match rawLocals !! key with
  | Some collection => Some (default [] (stringsOf collection))
  | None => None
  end.

Definition dependenciesAt (Separator : ascii) (rawLocals : gmap string Value)
    (key : string) : list string :=
  match rawLocals !! key with
  | Some collection => ToSlash Separator <$> default [] (stringsOf collection)
  | None => []
  end.

(** The record [resolveLocals] returns for conforming locals, field by
    field. *)
Definition extracted (Separator : ascii) (rawLocals : gmap string Value)
    : ResolvedLocals :=
  {| BranchProject := stringAt rawLocals "atlantis_branch";
     DeleteSourceBranchOnMergeProject :=
       boolAt rawLocals "atlantis_delete_source_branch_on_merge";
     AtlantisWorkflow := stringAt rawLocals "atlantis_workflow";
     PlanRequirements := requirementsAt rawLocals "atlantis_plan_requirements";
     ApplyRequirements := requirementsAt rawLocals "atlantis_apply_requirements";
     ImportRequirements :=
       requirementsAt rawLocals "atlantis_immport_requirements";
     ExtraAtlantisDependencies :=
       dependenciesAt Separator rawLocals "extra_atlantis_dependencies";
     AutoPlan := boolAt rawLocals "atlantis_autoplan";
     RepoLocking := boolAt rawLocals "atlantis_repo_locking";
     Skip := boolAt rawLocals "atlantis_skip";
     TerraformVersion := stringAt rawLocals "atlantis_terraform_version";
     markedProject := boolAt rawLocals "atlantis_project" |}.

(** ** The prior output and readOldConfig *)

Module Output.

(** [AutoplanConfig] *)
Record AutoplanConfig : Type := mkAutoplanConfig {
  WhenModified : Slice.t;
  Enabled : bool
}.

(** [AtlantisProject] *)
Record AtlantisProject : Type := mkAtlantisProject {
  Name : string;
  Branch : string;
  Dir : string;
  Workspace : string;
  ExecutionOrderGroup : Z;
  DeleteSourceBranchOnMergeProject : bool;
  RepoLocking : bool;
  Autoplan : AutoplanConfig;
  TerraformVersion : string;
  PlanRequirements : option Slice.t;
  ApplyRequirements : option Slice.t;
  ImportRequirements : option Slice.t;
  Workflow : string
}.

(** [AtlantisConfig]; [Workflows] is an [interface{}] whose values have
    the type [I]. *)
Record AtlantisConfig (I : Type) : Type := mkAtlantisConfig {
  Version : Z;
  AutoMerge : bool;
  DeleteSourceBranchOnMergeGlobal : bool;
  ParallelPlan : bool;
  ParallelApply : bool;
  Projects : option (list AtlantisProject);
  Workflows : option I
}.
Arguments mkAtlantisConfig {I}.

(** [AtlantisConfig{}] *)
Definition zeroConfig {I : Type} : AtlantisConfig I :=
  mkAtlantisConfig 0%Z false false false false None None.

(** What is at a path of the file system. *)
Inductive FileState : Type :=
| Missing
| Unreadable (reason : string)
| Contents (bytes : list Byte.byte).

(** What [readOldConfig] calls and does not define: the output path
    given on the command line, the file system, and the YAML decoder,
    which fills the configuration it is handed. *)
Class PriorOutput : Type := {
  outputPath : string;
  fileAt : string -> FileState;
  Interface : Type;
  Unmarshal :
    list Byte.byte -> AtlantisConfig Interface ->
    AtlantisConfig Interface * option error
}.

(** [ioutil.ReadFile] *)
Definition ReadFile `{PriorOutput} (filename : string)
    : list Byte.byte * option error :=
  match fileAt filename with
  | Missing => ([], Some (ExternalError "no such file or directory"))
  | Unreadable reason => ([], Some (ExternalError reason))
  | Contents bytes => (bytes, None)
  end.

(** What a call of [readOldConfig] yields: its two results and the lines
    it logs. *)
Record ReadOldConfig `{PriorOutput} : Type := mkReadOldConfig {
  config : option (AtlantisConfig Interface);
  err : option error;
  logged : list string
}.

Definition readOldConfig `{PriorOutput} : ReadOldConfig :=
  (* The old file not existing is not an error *)
  match ReadFile outputPath with
  | (_, Some _) =>
      mkReadOldConfig _ None None
        ["Could not find an old config file. Starting from scratch"]
  | (bytes, None) =>
      (* The old file being malformed is an actual error *)
      let config := zeroConfig in
      match Unmarshal bytes config with
      | (_, Some err) => mkReadOldConfig _ None (Some err) []
      | (config, None) => mkReadOldConfig _ (Some config) None []
      end
  end.

(** A decoder for the examples: a text that starts with a colon is
    malformed, any other leaves the configuration as it is. *)
Definition examplePriorOutput (state : FileState) : PriorOutput :=
  {| outputPath := "atlantis.yaml";
     fileAt filename :=
       if String.eqb filename "atlantis.yaml" then state else Missing;
     Interface := string;
     Unmarshal bytes config :=
       match bytes with
       | Byte.x3a :: _ =>
           (config, Some (ExternalError "yaml: did not find expected key"))
       | _ => (config, None)
       end |}.

End Output.

(** The key of the locals that [resolveLocals] reads for each field. *)
Definition keyOf (f : ReplaceField) : string :=
  match f with
  | FBranchProject => "atlantis_branch"
  | FDeleteSourceBranchOnMergeProject => "atlantis_delete_source_branch_on_merge"
  | FAtlantisWorkflow => "atlantis_workflow"
  | FTerraformVersion => "atlantis_terraform_version"
  | FAutoPlan => "atlantis_autoplan"
  | FRepoLocking => "atlantis_repo_locking"
  | FSkip => "atlantis_skip"
  | FMarkedProject => "atlantis_project"
  | FPlanRequirements => "atlantis_plan_requirements"
  | FApplyRequirements => "atlantis_apply_requirements"
  | FImportRequirements => "atlantis_immport_requirements"
  end.

(** The optional scalar fields, by type. *)
Definition flagFields : list ReplaceField :=
  [FDeleteSourceBranchOnMergeProject; FAutoPlan; FRepoLocking; FSkip;
   FMarkedProject].

Definition stringFields : list ReplaceField :=
  [FBranchProject; FAtlantisWorkflow; FTerraformVersion].

(** The requirement lists. *)
Definition requirementFields : list ReplaceField :=
  [FPlanRequirements; FApplyRequirements; FImportRequirements].

(** The keys [resolveLocals] looks up. *)
Definition recognisedKeys : list string :=
  ["atlantis_branch"; "atlantis_delete_source_branch_on_merge";
   "atlantis_workflow"; "atlantis_terraform_version"; "atlantis_autoplan";
   "atlantis_repo_locking"; "atlantis_skip"; "atlantis_plan_requirements";
   "atlantis_apply_requirements"; "atlantis_immport_requirements";
   "atlantis_project"; "extra_atlantis_dependencies"].

(** The bytes of a string. *)
Definition bytesOf (s : string) : list ascii := list_ascii_of_string s.

(** * Properties *)

(** ** The merge engine *)

(** [mergeResolvedLocals], field by field. *)
Lemma mergeResolvedLocals_fields (parent child : ResolvedLocals) :
  mergeResolvedLocals parent child =
  {| BranchProject :=
       if str_set (BranchProject child)
       then BranchProject child else BranchProject parent;
     DeleteSourceBranchOnMergeProject :=
       if ptr_set (DeleteSourceBranchOnMergeProject child)
       then DeleteSourceBranchOnMergeProject child
       else DeleteSourceBranchOnMergeProject parent;
     AtlantisWorkflow :=
       if str_set (AtlantisWorkflow child)
       then AtlantisWorkflow child else AtlantisWorkflow parent;
     PlanRequirements :=
       if slice_set (PlanRequirements child)
       then PlanRequirements child else PlanRequirements parent;
     ApplyRequirements :=
       if slice_set (ApplyRequirements child)
       then ApplyRequirements child else ApplyRequirements parent;
     ImportRequirements :=
       if slice_set (ImportRequirements child)
       then ImportRequirements child else ImportRequirements parent;
     ExtraAtlantisDependencies :=
       (ExtraAtlantisDependencies parent ++ ExtraAtlantisDependencies child)%list;
     AutoPlan :=
       if ptr_set (AutoPlan child) then AutoPlan child else AutoPlan parent;
     RepoLocking :=
       if ptr_set (RepoLocking child)
       then RepoLocking child else RepoLocking parent;
     Skip := if ptr_set (Skip child) then Skip child else Skip parent;
     TerraformVersion :=
       if str_set (TerraformVersion child)
       then TerraformVersion child else TerraformVersion parent;
     markedProject :=
       if ptr_set (markedProject child)
       then markedProject child else markedProject parent |}.
Proof.
  unfold mergeResolvedLocals.
  generalize (str_set (BranchProject child))
             (ptr_set (DeleteSourceBranchOnMergeProject child))
             (str_set (AtlantisWorkflow child))
             (str_set (TerraformVersion child))
             (ptr_set (AutoPlan child)) (ptr_set (RepoLocking child))
             (ptr_set (Skip child)) (ptr_set (markedProject child))
             (slice_set (PlanRequirements child))
             (slice_set (ApplyRequirements child))
             (slice_set (ImportRequirements child)).
  intros b1 b2 b3 b4 b5 b6 b7 b8 b9 b10 b11.
  destruct parent.
  destruct b1, b2, b3, b4, b5, b6, b7, b8, b9, b10, b11; reflexivity.
Qed.

Lemma str_set_false (s : string) : str_set s = false -> s = "".
Proof.
  unfold str_set. destruct (String.eqb_spec s ""); [done | discriminate].
Qed.

Lemma ptr_set_false (p : option bool) : ptr_set p = false -> p = None.
Proof. destruct p; [discriminate | done]. Qed.

Lemma slice_set_non_nil (s : Slice.t) : slice_set s = true <-> s <> None.
Proof.
  destruct s as [l|]; unfold slice_set; simpl; [by split|].
  split; [discriminate | congruence].
Qed.

Lemma slice_set_false (s : Slice.t) : slice_set s = false -> s = None.
Proof.
  intros Hs. destruct s as [l|]; [|done].
  assert (slice_set (Some l) = true) by (apply slice_set_non_nil; discriminate).
  congruence.
Qed.

(** A field that is not set holds the zero value of its type. *)
Lemma not_set_zero (f : ReplaceField) (r : ResolvedLocals) :
  isSet (field f r) = false -> field f r = field f zeroLocals.
Proof.
  destruct f; simpl; intros Hf;
    first [ apply str_set_false in Hf | apply ptr_set_false in Hf
          | apply slice_set_false in Hf ];
    by rewrite Hf.
Qed.

Lemma field_merge (f : ReplaceField) (parent child : ResolvedLocals) :
  field f (mergeResolvedLocals parent child) =
  if isSet (field f child) then field f child else field f parent.
Proof.
  rewrite mergeResolvedLocals_fields.
  destruct f; simpl; by case_match.
Qed.

Lemma extra_merge (parent child : ResolvedLocals) :
  ExtraAtlantisDependencies (mergeResolvedLocals parent child) =
  (ExtraAtlantisDependencies parent ++ ExtraAtlantisDependencies child)%list.
Proof. by rewrite mergeResolvedLocals_fields. Qed.

(** The empty record is a left identity of the merge. *)
Lemma merge_zero_left (child : ResolvedLocals) :
  mergeResolvedLocals zeroLocals child = child.
Proof.
  rewrite mergeResolvedLocals_fields. destruct child; simpl.
  f_equal;
    match goal with
    | |- (if ?g then _ else _) = _ =>
        let Hg := fresh in
        destruct g eqn:Hg; [done|];
        first [ apply str_set_false in Hg | apply ptr_set_false in Hg
              | apply slice_set_false in Hg ];
        by rewrite Hg
    end.
Qed.

(** Merging a list of records one after the other: each replaced field ends
    with the last value that is set, the dependencies pile up. *)
Lemma field_fold_merge (f : ReplaceField) (rs : list ResolvedLocals)
    (acc : ResolvedLocals) :
  field f (fold_left mergeResolvedLocals rs acc) =
  lastSet (field f acc) (field f <$> rs).
Proof.
  revert acc. induction rs as [|r rs IH]; intros acc; [done|].
  simpl. rewrite IH, field_merge. done.
Qed.

Lemma extra_fold_merge (rs : list ResolvedLocals) (acc : ResolvedLocals) :
  ExtraAtlantisDependencies (fold_left mergeResolvedLocals rs acc) =
  (ExtraAtlantisDependencies acc
     ++ concat (ExtraAtlantisDependencies <$> rs))%list.
Proof.
  revert acc. induction rs as [|r rs IH]; intros acc; simpl.
  - by rewrite app_nil_r.
  - by rewrite IH, extra_merge, <- app_assoc.
Qed.

Lemma lastSet_snoc (v0 v : FieldValue) (vs : list FieldValue) :
  lastSet v0 (vs ++ [v]) = if isSet v then v else lastSet v0 vs.
Proof. unfold lastSet. by rewrite fold_left_app. Qed.

(** ** The extractor *)

Lemma foldM_strings {B : Type} (body : B -> string -> B) (it : list Value)
    (acc : B) :
  match mapM (fun val => match val with VString s => Some s | _ => None end) it with
  | Some strs =>
      foldM (fun acc val => str ← AsString val; mret (body acc str)) it acc
      = Returned (fold_left body strs acc)
  | None =>
      exists msg,
        foldM (fun acc val => str ← AsString val; mret (body acc str)) it acc
        = Panic msg
  end.
Proof.
  revert acc. induction it as [|val it IH]; intros acc; [done|].
  simpl. destruct val; simpl; try by eexists.
  specialize (IH (body acc s)).
  destruct (mapM _ it) as [strs|]; simpl; done.
Qed.

Lemma forElements_run {B : Type} (collection : Value) (acc : B)
    (body : B -> string -> B) :
  match stringsOf collection with
  | Some strs => forElements collection acc body = Returned (fold_left body strs acc)
  | None => exists msg, forElements collection acc body = Panic msg
  end.
Proof.
  unfold stringsOf, forElements.
  destruct (ElementIterator collection) as [it|msg]; simpl; [|by eexists].
  apply foldM_strings.
Qed.

Lemma fold_append_requirements (strs l0 : list string) :
  fold_left (fun reqs str => Slice.append reqs [str]) strs (Some l0)
  = Some (l0 ++ strs)%list.
Proof.
  revert l0. induction strs as [|s strs IH]; intros l0; simpl.
  - by rewrite app_nil_r.
  - by rewrite IH, <- app_assoc.
Qed.

Lemma fold_append_dependencies (f : string -> string) (strs l0 : list string) :
  fold_left (fun deps str => deps ++ [f str])%list strs l0
  = (l0 ++ (f <$> strs))%list.
Proof.
  revert l0. induction strs as [|s strs IH]; intros l0; simpl.
  - by rewrite app_nil_r.
  - by rewrite IH, <- app_assoc.
Qed.

(** Each kind of block, run on a record whose field is still at its zero
    value, either assigns the field or panics, depending on what its key
    holds. [get] reads the field that [set] assigns. *)
Lemma stringBlock_run set (get : ResolvedLocals -> string) key rawLocals resolved :
  (forall r, set (get r) r = r) ->
  get resolved = "" ->
  if holdsString (rawLocals !! key)
  then stringBlock set key rawLocals resolved
       = Returned (set (stringAt rawLocals key) resolved)
  else exists msg, stringBlock set key rawLocals resolved = Panic msg.
Proof.
  intros Hset Hzero. unfold stringBlock, stringAt.
  destruct (rawLocals !! key) as [[]|]; simpl; try (by eexists); try done.
  by rewrite <- Hzero, Hset.
Qed.

Lemma boolBlock_run set (get : ResolvedLocals -> option bool) key rawLocals
    resolved :
  (forall r, set (get r) r = r) ->
  get resolved = None ->
  if holdsBool (rawLocals !! key)
  then boolBlock set key rawLocals resolved
       = Returned (set (boolAt rawLocals key) resolved)
  else exists msg, boolBlock set key rawLocals resolved = Panic msg.
Proof.
  intros Hset Hzero. unfold boolBlock, boolAt.
  destruct (rawLocals !! key) as [[]|]; simpl; try (by eexists); try done.
  by rewrite <- Hzero, Hset.
Qed.

Lemma requirementsBlock_run set (get : ResolvedLocals -> Slice.t) key rawLocals
    resolved :
  (forall r, set (get r) r = r) ->
  get resolved = None ->
  if holdsStrings (rawLocals !! key)
  then requirementsBlock set key rawLocals resolved
       = Returned (set (requirementsAt rawLocals key) resolved)
  else exists msg, requirementsBlock set key rawLocals resolved = Panic msg.
Proof.
  intros Hset Hzero. unfold requirementsBlock, holdsStrings, requirementsAt.
  destruct (rawLocals !! key) as [collection|]; simpl;
    [|by rewrite <- Hzero, Hset].
  pose proof (forElements_run collection (Some [])
                (fun reqs str => Slice.append reqs [str])) as Hrun.
  destruct (stringsOf collection) as [strs|]; simpl.
  - rewrite Hrun, fold_append_requirements. done.
  - destruct Hrun as [msg ->]. by eexists.
Qed.

Lemma dependenciesBlock_run Separator key rawLocals resolved :
  ExtraAtlantisDependencies resolved = [] ->
  if holdsStrings (rawLocals !! key)
  then dependenciesBlock Separator key rawLocals resolved
       = Returned (set_ExtraAtlantisDependencies
                     (dependenciesAt Separator rawLocals key) resolved)
  else exists msg, dependenciesBlock Separator key rawLocals resolved = Panic msg.
Proof.
  intros Hzero. unfold dependenciesBlock, holdsStrings, dependenciesAt.
  destruct (rawLocals !! key) as [collection|]; simpl.
  2:{ rewrite <- Hzero. by destruct resolved. }
  pose proof (forElements_run collection (ExtraAtlantisDependencies resolved)
                (fun deps str => deps ++ [ToSlash Separator str])%list) as Hrun.
  destruct (stringsOf collection) as [strs|]; simpl.
  - rewrite Hrun, fold_append_dependencies, Hzero. done.
  - destruct Hrun as [msg ->]. by eexists.
Qed.

(** [resolveLocals] is its blocks run one after the other. *)
Lemma resolveLocals_blocks (Separator : ascii) (localsAsCty : Value) :
  resolveLocals Separator localsAsCty =
  if isNilVal localsAsCty then mret zeroLocals else
  rawLocals ← AsValueMap localsAsCty;
  r ← stringBlock set_BranchProject "atlantis_branch" rawLocals zeroLocals;
  r ← boolBlock set_DeleteSourceBranchOnMergeProject
        "atlantis_delete_source_branch_on_merge" rawLocals r;
  r ← stringBlock set_AtlantisWorkflow "atlantis_workflow" rawLocals r;
  r ← stringBlock set_TerraformVersion "atlantis_terraform_version" rawLocals r;
  r ← boolBlock set_AutoPlan "atlantis_autoplan" rawLocals r;
  r ← boolBlock set_RepoLocking "atlantis_repo_locking" rawLocals r;
  r ← boolBlock set_Skip "atlantis_skip" rawLocals r;
  r ← requirementsBlock set_PlanRequirements "atlantis_plan_requirements"
        rawLocals r;
  r ← requirementsBlock set_ApplyRequirements "atlantis_apply_requirements"
        rawLocals r;
  r ← requirementsBlock set_ImportRequirements "atlantis_immport_requirements"
        rawLocals r;
  r ← boolBlock set_markedProject "atlantis_project" rawLocals r;
  r ← dependenciesBlock Separator "extra_atlantis_dependencies" rawLocals r;
  mret r.
Proof. reflexivity. Qed.

(** Assigning a field its own value changes nothing. *)
Lemma set_get_BranchProject r : set_BranchProject (BranchProject r) r = r.
Proof. by destruct r. Qed.
Lemma set_get_DeleteSourceBranchOnMergeProject r :
  set_DeleteSourceBranchOnMergeProject (DeleteSourceBranchOnMergeProject r) r = r.
Proof. by destruct r. Qed.
Lemma set_get_AtlantisWorkflow r : set_AtlantisWorkflow (AtlantisWorkflow r) r = r.
Proof. by destruct r. Qed.
Lemma set_get_TerraformVersion r : set_TerraformVersion (TerraformVersion r) r = r.
Proof. by destruct r. Qed.
Lemma set_get_AutoPlan r : set_AutoPlan (AutoPlan r) r = r.
Proof. by destruct r. Qed.
Lemma set_get_RepoLocking r : set_RepoLocking (RepoLocking r) r = r.
Proof. by destruct r. Qed.
Lemma set_get_Skip r : set_Skip (Skip r) r = r.
Proof. by destruct r. Qed.
Lemma set_get_markedProject r : set_markedProject (markedProject r) r = r.
Proof. by destruct r. Qed.
Lemma set_get_PlanRequirements r : set_PlanRequirements (PlanRequirements r) r = r.
Proof. by destruct r. Qed.
Lemma set_get_ApplyRequirements r : set_ApplyRequirements (ApplyRequirements r) r = r.
Proof. by destruct r. Qed.
Lemma set_get_ImportRequirements r :
  set_ImportRequirements (ImportRequirements r) r = r.
Proof. by destruct r. Qed.

(** Runs the first block of the goal: where its key holds the wrong kind of
    value the block panics and the goal is closed, otherwise the block is
    replaced by the record it returns. *)
Ltac run_block Hblock :=
  let Hb := fresh "Hb" in
  pose proof Hblock as Hb;
  match type of Hb with
  | if ?h then _ else _ =>
      destruct h;
      [ rewrite Hb; clear Hb; cbn [mbind outcome_bind andb]
      | let msg := fresh "msg" in
        destruct Hb as [msg Hb]; rewrite Hb;
        cbn [mbind outcome_bind andb]; by exists msg ]
  end.

Ltac run_first_block :=
  lazymatch goal with
  | |- context [stringBlock set_BranchProject ?k ?m ?r] =>
      run_block (stringBlock_run set_BranchProject BranchProject k m r
                   set_get_BranchProject eq_refl)
  | |- context [boolBlock set_DeleteSourceBranchOnMergeProject ?k ?m ?r] =>
      run_block (boolBlock_run set_DeleteSourceBranchOnMergeProject
                   DeleteSourceBranchOnMergeProject k m r
                   set_get_DeleteSourceBranchOnMergeProject eq_refl)
  | |- context [stringBlock set_AtlantisWorkflow ?k ?m ?r] =>
      run_block (stringBlock_run set_AtlantisWorkflow AtlantisWorkflow k m r
                   set_get_AtlantisWorkflow eq_refl)
  | |- context [stringBlock set_TerraformVersion ?k ?m ?r] =>
      run_block (stringBlock_run set_TerraformVersion TerraformVersion k m r
                   set_get_TerraformVersion eq_refl)
  | |- context [boolBlock set_AutoPlan ?k ?m ?r] =>
      run_block (boolBlock_run set_AutoPlan AutoPlan k m r set_get_AutoPlan
                   eq_refl)
  | |- context [boolBlock set_RepoLocking ?k ?m ?r] =>
      run_block (boolBlock_run set_RepoLocking RepoLocking k m r
                   set_get_RepoLocking eq_refl)
  | |- context [boolBlock set_Skip ?k ?m ?r] =>
      run_block (boolBlock_run set_Skip Skip k m r set_get_Skip eq_refl)
  | |- context [requirementsBlock set_PlanRequirements ?k ?m ?r] =>
      run_block (requirementsBlock_run set_PlanRequirements PlanRequirements
                   k m r set_get_PlanRequirements eq_refl)
  | |- context [requirementsBlock set_ApplyRequirements ?k ?m ?r] =>
      run_block (requirementsBlock_run set_ApplyRequirements ApplyRequirements
                   k m r set_get_ApplyRequirements eq_refl)
  | |- context [requirementsBlock set_ImportRequirements ?k ?m ?r] =>
      run_block (requirementsBlock_run set_ImportRequirements
                   ImportRequirements k m r set_get_ImportRequirements eq_refl)
  | |- context [boolBlock set_markedProject ?k ?m ?r] =>
      run_block (boolBlock_run set_markedProject markedProject k m r
                   set_get_markedProject eq_refl)
  | |- context [dependenciesBlock ?sep ?k ?m ?r] =>
      run_block (dependenciesBlock_run sep k m r eq_refl)
  end.

(** What [resolveLocals] does on a value that has locals: it returns the
    record [extracted] describes when every recognised key holds the kind of
    value its block expects, and panics otherwise. *)
Lemma resolveLocals_run (Separator : ascii) (localsAsCty : Value)
    (rawLocals : gmap string Value) :
  isNilVal localsAsCty = false ->
  AsValueMap localsAsCty = Returned rawLocals ->
  if conforming rawLocals
  then resolveLocals Separator localsAsCty = Returned (extracted Separator rawLocals)
  else exists msg, resolveLocals Separator localsAsCty = Panic msg.
Proof.
  intros Hnil Hmap.
  rewrite resolveLocals_blocks, Hnil, Hmap.
  unfold conforming. cbn [mbind outcome_bind].
  do 12 run_first_block.
  reflexivity.
Qed.

(** ** The include resolver *)

Section ParseLocalsFacts.

Context `{Collaborators}.

(** [parseLocals] in terms of the decoded file: the error of the file
    itself is returned; otherwise the followed includes are merged in
    order and the file's own locals last. *)
Lemma parseLocals_decoded (path : string)
    (includeFromChild : option IncludeConfig) :
  parseLocals path includeFromChild =
  match decodeFile path includeFromChild with
  | (_, _, Some err) => mret (zeroLocals, Some err)
  | (localsAsCty, trackInclude, None) =>
      mergedParentLocals ←
        foldM (fun mergedParentLocals includeConfig =>
                 '(parentLocals, _) ←
                   parseLocals (Path includeConfig) (Some includeConfig);
                 mret (mergeResolvedLocals mergedParentLocals parentLocals))
              (followedIncludes trackInclude includeFromChild) zeroLocals;
      cty ← deref localsAsCty;
      childLocals ← resolveLocals Separator cty;
      mret (mergeResolvedLocals mergedParentLocals childLocals, None)
  end.
Proof.
  unfold decodeFile.
  funelim (parseLocals path includeFromChild); clear Heqcall;
    repeat match goal with
           | Heq : _ = (_, _) |- _ => rewrite Heq; clear Heq
           end; simpl; try done.
  all: try match goal with
           | inc : option IncludeConfig |- _ => destruct inc
           end; try done.
  all: match goal with
       | t : option TrackInclude |- _ => by destruct t
       end.
Qed.

(** A file that is parsed as an include follows no include of its own. *)
Lemma followedIncludes_included trackInclude includeConfig :
  followedIncludes trackInclude (Some includeConfig) = [].
Proof. by destruct trackInclude. Qed.

Lemma parseLocals_included (path : string) (includeConfig : IncludeConfig) :
  parseLocals path (Some includeConfig) =
  match decodeFile path (Some includeConfig) with
  | (_, _, Some err) => mret (zeroLocals, Some err)
  | (localsAsCty, _, None) =>
      cty ← deref localsAsCty;
      childLocals ← resolveLocals Separator cty;
      mret (childLocals, None)
  end.
Proof.
  rewrite parseLocals_decoded.
  destruct (decodeFile path (Some includeConfig)) as [[l t] [err|]]; [done|].
  rewrite followedIncludes_included. simpl.
  destruct (deref l) as [cty|]; simpl; [|done].
  destruct (resolveLocals Separator cty) as [child|]; simpl; [|done].
  by rewrite merge_zero_left.
Qed.

(** The loop of [parseLocals] uses of an include only its [ownRecord]:
    the error that comes with it is dropped. *)
Lemma parseLocals_included_record {B : Type} (path : string)
    (includeConfig : IncludeConfig) (k : ResolvedLocals -> outcome B) :
  ('(parentLocals, _) ← parseLocals path (Some includeConfig); k parentLocals)
  = (parentLocals ← ownRecord path (Some includeConfig); k parentLocals).
Proof.
  rewrite parseLocals_included. unfold ownRecord.
  destruct (decodeFile path (Some includeConfig)) as [[l t] [err|]]; [done|].
  destruct (deref l) as [cty|]; simpl; [|done].
  by destruct (resolveLocals Separator cty).
Qed.

Lemma foldM_includes (includeList : list IncludeConfig) (acc : ResolvedLocals) :
  foldM (fun mergedParentLocals includeConfig =>
           '(parentLocals, _) ←
             parseLocals (Path includeConfig) (Some includeConfig);
           mret (mergeResolvedLocals mergedParentLocals parentLocals))
        includeList acc
  = (parents ← mapM (fun includeConfig =>
                       ownRecord (Path includeConfig) (Some includeConfig))
                    includeList;
     mret (fold_left mergeResolvedLocals parents acc)).
Proof.
  revert acc. induction includeList as [|ic l IH]; intros acc; [done|].
  cbn [foldM]. rewrite parseLocals_included_record. cbn [mapM].
  destruct (ownRecord (Path ic) (Some ic)) as [parent|]; simpl; [|done].
  rewrite IH.
  by destruct (mapM _ l).
Qed.

(** An error that [parseLocals] returns is the error of reading, parsing
    or decoding the file at [path] itself, and comes with the empty
    record. *)
Lemma parseLocals_error (path : string)
    (includeFromChild : option IncludeConfig) (r : ResolvedLocals) (e : error) :
  parseLocals path includeFromChild = Returned (r, Some e) ->
  (decodeFile path includeFromChild).2 = Some e /\ r = zeroLocals.
Proof.
  rewrite parseLocals_decoded.
  destruct (decodeFile path includeFromChild) as [[l t] [err|]]; simpl.
  - intros [= <- <-]. done.
  - destruct (foldM _ _ _) as [parents|]; simpl; [|done].
    destruct (deref l) as [cty|]; simpl; [|done].
    destruct (resolveLocals Separator cty) as [child|]; simpl; done.
Qed.

End ParseLocalsFacts.

(** * The claims *)

(** C1. For every parent and child record and every field with replace
    semantics (the optional scalars and the plan, apply and import
    requirement lists), the merge holds the child's value when the child's
    field is set and the parent's value otherwise; a child whose requirement
    list is the explicit empty list counts as set, and the merge then holds
    the explicit empty list, not the parent's list. *)
Theorem merge_replace_semantics (parent child : ResolvedLocals)
    (f : ReplaceField) :
  field f (mergeResolvedLocals parent child)
  = (if isSet (field f child) then field f child else field f parent)
  /\ (field f child = StringSlice (Some []) ->
      isSet (field f child) = true
      /\ field f (mergeResolvedLocals parent child) = StringSlice (Some [])).
Proof.
  split; [apply field_merge|].
  intros Hempty. rewrite field_merge, Hempty. done.
Qed.

Lemma merge_replace_semantics_witness :
  let parent := set_PlanRequirements (Some ["approved"]) zeroLocals in
  let child := set_PlanRequirements (Some []) zeroLocals in
  PlanRequirements (mergeResolvedLocals parent child) = Some [].
Proof.
  intros parent child.
  destruct (merge_replace_semantics parent child FPlanRequirements)
    as [_ Hempty].
  destruct (Hempty eq_refl) as [_ Hmerged].
  exact (f_equal (fun v => match v with StringSlice s => s | _ => None end)
                 Hmerged).
Defined.

(** C2. For every parent and child record, the extra dependency paths of
    the merge are the parent's entries followed by the child's, in order
    and without de-duplication (so the lengths add up), and the replaced
    fields of the merge do not depend on the extra dependency paths. *)
Theorem merge_appends_extra_dependencies (parent child : ResolvedLocals) :
  ExtraAtlantisDependencies (mergeResolvedLocals parent child)
  = (ExtraAtlantisDependencies parent ++ ExtraAtlantisDependencies child)%list
  /\ length (ExtraAtlantisDependencies (mergeResolvedLocals parent child))
     = length (ExtraAtlantisDependencies parent)
       + length (ExtraAtlantisDependencies child)
  /\ forall (f : ReplaceField) (deps deps' : list string),
       field f (mergeResolvedLocals
                  (set_ExtraAtlantisDependencies deps parent)
                  (set_ExtraAtlantisDependencies deps' child))
       = field f (mergeResolvedLocals parent child).
Proof.
  rewrite extra_merge, length_app. split; [done|]. split; [done|].
  intros f deps deps'. rewrite !field_merge. by destruct f.
Qed.

(** C9. When a module has no locals block (its evaluated locals are the nil
    value), extraction returns the record with every field unset; it does
    not panic and has no error to return. *)
Theorem resolveLocals_without_locals (Separator : ascii) :
  resolveLocals Separator NilVal = Returned zeroLocals
  /\ (forall f, isSet (field f zeroLocals) = false)
  /\ ExtraAtlantisDependencies zeroLocals = [].
Proof.
  split; [reflexivity|]. split; [|reflexivity]. by intros [].
Qed.

Section Claims.

Context `{Collaborators}.

(** C8. The empty record is a left identity of the merge: merging any
    child record into the all-unset parent yields the child exactly. So
    a module for which no include is followed resolves to precisely the
    record extracted from its own locals. *)
Theorem empty_parent_is_left_identity :
  (forall child, mergeResolvedLocals zeroLocals child = child)
  /\ (forall path includeFromChild localsAsCty trackInclude,
        decodeFile path includeFromChild = (localsAsCty, trackInclude, None) ->
        followedIncludes trackInclude includeFromChild = [] ->
        parseLocals path includeFromChild
        = (cty ← deref localsAsCty;
           childLocals ← resolveLocals Separator cty;
           mret (childLocals, None))).
Proof.
  split; [apply merge_zero_left|].
  intros path inc l t Hdecode Hnone.
  rewrite parseLocals_decoded, Hdecode, Hnone. simpl.
  destruct (deref l) as [cty|]; simpl; [|done].
  destruct (resolveLocals Separator cty) as [child|]; simpl; [|done].
  by rewrite merge_zero_left.
Qed.

(** C3, as the code has it. No include cycle is detected and there is no
    cyclic-include error. A file that is parsed as an include follows no
    include of its own, so the recursion is one level deep on every include
    graph, cyclic or not; and the resolver makes no error of its own: an
    error that [parseLocals] returns was produced by reading, parsing or
    decoding a file. *)
Theorem parseLocals_detects_no_cycle :
  (forall path includeConfig,
      parseLocals path (Some includeConfig) =
      match decodeFile path (Some includeConfig) with
      | (_, _, Some err) => mret (zeroLocals, Some err)
      | (localsAsCty, _, None) =>
          cty ← deref localsAsCty;
          childLocals ← resolveLocals Separator cty;
          mret (childLocals, None)
      end)
  /\ (forall path includeFromChild r e,
        parseLocals path includeFromChild = Returned (r, Some e) ->
        exists file fromChild, (decodeFile file fromChild).2 = Some e).
Proof.
  split; [apply parseLocals_included|].
  intros path inc r e Hr. exists path, inc.
  by destruct (parseLocals_error path inc r e Hr).
Qed.

Lemma mapM_ownRecord_decoded (includeList : list IncludeConfig) :
  Forall (fun includeConfig =>
            (decodeFile (Path includeConfig) (Some includeConfig)).2 = None)
         includeList ->
  mapM (fun includeConfig =>
          ownRecord (Path includeConfig) (Some includeConfig)) includeList
  = mapM (fun includeConfig =>
            extractedFrom (Path includeConfig) (Some includeConfig)) includeList.
Proof.
  induction 1 as [|ic l Hic _ IH]; [done|].
  cbn [mapM]. rewrite IH. f_equal.
  unfold ownRecord, extractedFrom.
  by destruct (decodeFile (Path ic) (Some ic)) as [[locals t] [e|]].
Qed.

(** C4, as the code has it. The directly declared includes of a module
    are resolved, each from its own file alone (the includes of an include
    are not followed), and merged in the order they are declared; the
    module's own extracted record is merged last. In the result a replaced
    field holds the module's own value when that is set, and otherwise the
    value of the last include that sets it. This is stated for includes
    whose files read, parse and decode. *)
Theorem parseLocals_folds_direct_includes (path : string)
    (localsAsCty : option Value) (tracked : TrackInclude) :
  decodeFile path None = (localsAsCty, Some tracked, None) ->
  Forall (fun includeConfig =>
            (decodeFile (Path includeConfig) (Some includeConfig)).2 = None)
         (CurrentList tracked) ->
  parseLocals path None
  = (parents ← mapM (fun includeConfig =>
                       extractedFrom (Path includeConfig) (Some includeConfig))
                    (CurrentList tracked);
     cty ← deref localsAsCty;
     childLocals ← resolveLocals Separator cty;
     mret (fold_left mergeResolvedLocals (parents ++ [childLocals]) zeroLocals,
           None))
  /\ forall (parents : list ResolvedLocals) (childLocals : ResolvedLocals)
            (f : ReplaceField),
       field f (fold_left mergeResolvedLocals (parents ++ [childLocals])
                          zeroLocals)
       = if isSet (field f childLocals) then field f childLocals
         else lastSet (field f zeroLocals) (field f <$> parents).
Proof.
  intros Hdecode Hincludes. split.
  - rewrite parseLocals_decoded, Hdecode. cbn [followedIncludes].
    rewrite foldM_includes, (mapM_ownRecord_decoded _ Hincludes).
    destruct (mapM _ (CurrentList tracked)) as [parents|]; simpl; [|done].
    destruct (deref localsAsCty) as [cty|]; simpl; [|done].
    destruct (resolveLocals Separator cty) as [child|]; simpl; [|done].
    by rewrite fold_left_app.
  - intros parents child f.
    rewrite field_fold_merge, fmap_app. apply lastSet_snoc.
Qed.

End Claims.

Lemma parseLocals_detects_no_cycle_witness :
  let world := servedFrom true chainFs in
  parseLocals (H:=world) "missing.hcl" None
  = Returned (zeroLocals, Some (ExternalError "no such file or directory"))
  /\ exists file fromChild,
       (decodeFile (H:=world) file fromChild).2
       = Some (ExternalError "no such file or directory").
Proof.
  intros world.
  assert (Hrun : parseLocals (H:=world) "missing.hcl" None
                 = Returned (zeroLocals,
                             Some (ExternalError "no such file or directory")))
    by (vm_compute; reflexivity).
  split; [exact Hrun|].
  exact (proj2 (parseLocals_detects_no_cycle (H:=world)) _ _ _ _ Hrun).
Defined.

(** C3, as the claim has it, fails: two modules that include each other,
    and a module that includes itself, lie on an include cycle, and
    resolving them returns a record and no error, whether the decoder
    reports the include of an included file or refuses it. *)
Lemma cyclic_include_resolves_without_error :
  (onIncludeCycle (H:=servedFrom false mutualIncludeFs) "a/terragrunt.hcl"
   /\ parseLocals (H:=servedFrom false mutualIncludeFs) "a/terragrunt.hcl" None
      = Returned (set_AutoPlan (Some true)
                    (set_AtlantisWorkflow "prod" zeroLocals), None))
  /\ (onIncludeCycle (H:=servedFrom true mutualIncludeFs) "a/terragrunt.hcl"
      /\ parseLocals (H:=servedFrom true mutualIncludeFs) "a/terragrunt.hcl" None
         = Returned (set_AtlantisWorkflow "prod" zeroLocals, None))
  /\ (onIncludeCycle (H:=servedFrom false selfIncludeFs) "a/terragrunt.hcl"
      /\ parseLocals (H:=servedFrom false selfIncludeFs) "a/terragrunt.hcl" None
         = Returned (set_AtlantisWorkflow "prod" zeroLocals, None)).
Proof.
  assert (Hmutual : forall rejectNested,
             onIncludeCycle (H:=servedFrom rejectNested mutualIncludeFs)
               "a/terragrunt.hcl").
  { intros rejectNested.
    apply tc_l with "b/terragrunt.hcl"; [|apply tc_once].
    - eexists _, _, (includeOf "b/terragrunt.hcl").
      split; [vm_compute; reflexivity|]. split; [|done]. repeat constructor.
    - eexists _, _, (includeOf "a/terragrunt.hcl").
      split; [vm_compute; reflexivity|]. split; [|done]. repeat constructor. }
  repeat split; try apply Hmutual; try (vm_compute; reflexivity).
  apply tc_once.
  eexists _, _, (includeOf "a/terragrunt.hcl").
  split; [vm_compute; reflexivity|]. split; [|done]. repeat constructor.
Qed.

Lemma parseLocals_folds_direct_includes_witness :
  let world := servedFrom true siblingsFs in
  parseLocals (H:=world) "app/terragrunt.hcl" None
  = Returned
      ({| BranchProject := "";
          DeleteSourceBranchOnMergeProject := None;
          AtlantisWorkflow := "state";
          PlanRequirements := Some [];
          ApplyRequirements := None;
          ImportRequirements := None;
          ExtraAtlantisDependencies := ["../shared"; "../other"];
          AutoPlan := None;
          RepoLocking := None;
          Skip := None;
          TerraformVersion := "1.5.0";
          markedProject := None |}, None).
Proof.
  intros world.
  destruct (parseLocals_folds_direct_includes (H:=world) "app/terragrunt.hcl"
              (Some (VObject [("atlantis_plan_requirements", VList []);
                              ("extra_atlantis_dependencies",
                               VList [VString "../other"])]))
              (mkTrackInclude [includeOf "naming.hcl"; includeOf "state.hcl"] None)
              eq_refl) as [Hrun _].
  { repeat (constructor; [vm_compute; reflexivity|]). constructor. }
  rewrite Hrun. vm_compute. reflexivity.
Defined.

(** C4, as the claim has it, fails: in the chain where [c] includes [b] and
    [b] includes [a], only [a] declares a workflow, so folding the records
    of [a], [b] and [c] parent-then-child gives the workflow of [a]; but
    resolving [c] leaves the workflow unset, whether the decoder refuses the
    nested include of [b] or reports it. *)
Lemma grandparent_is_not_resolved :
  let ra := set_AtlantisWorkflow "prod" zeroLocals in
  let rb := set_AutoPlan (Some true) zeroLocals in
  let rc := set_Skip (Some false) zeroLocals in
  (parseLocals (H:=servedFrom true chainFs) "a/terragrunt.hcl" None
     = Returned (ra, None)
   /\ extractedFrom (H:=servedFrom false chainFs) "b/terragrunt.hcl"
        (Some (includeOf "b/terragrunt.hcl")) = Returned rb
   /\ extractedFrom (H:=servedFrom true chainFs) "c/terragrunt.hcl" None
      = Returned rc)
  /\ AtlantisWorkflow
       (mergeResolvedLocals (mergeResolvedLocals ra rb) rc) = "prod"
  /\ parseLocals (H:=servedFrom true chainFs) "c/terragrunt.hcl" None
     = Returned (rc, None)
  /\ parseLocals (H:=servedFrom false chainFs) "c/terragrunt.hcl" None
     = Returned (mergeResolvedLocals rb rc, None)
  /\ AtlantisWorkflow rc = ""
  /\ AtlantisWorkflow (mergeResolvedLocals rb rc) = "".
Proof. vm_compute. repeat split; reflexivity. Qed.

(** C6 on the code: the parent [root.hcl] does not parse and its
    resolution returns the parser's diagnostics as an error; the child that
    includes it resolves to its own record with no error, the parent
    counting as empty. *)
Theorem parent_error_is_discarded :
  let world := servedFrom true brokenParentFs in
  parseLocals (H:=world) "root.hcl" (Some (includeOf "root.hcl"))
  = Returned (zeroLocals,
              Some (DiagnosticsError [mkDiagnostic DiagError "Invalid expression"]))
  /\ parseLocals (H:=world) "child/terragrunt.hcl" None
     = Returned (set_Skip (Some false) zeroLocals, None).
Proof. vm_compute. split; reflexivity. Qed.

Lemma empty_parent_is_left_identity_witness :
  let world := servedFrom true chainFs in
  parseLocals (H:=world) "a/terragrunt.hcl" None
  = Returned (set_AtlantisWorkflow "prod" zeroLocals, None).
Proof.
  intros world.
  rewrite (proj2 (empty_parent_is_left_identity (H:=world))
             "a/terragrunt.hcl" None
             (Some (VObject [("atlantis_workflow", VString "prod")]))
             (Some (mkTrackInclude [] None)) eq_refl eq_refl).
  vm_compute. reflexivity.
Defined.

(** ** What extraction returns *)

(** When [resolveLocals] returns on a value that has locals, every
    recognised key holds the kind of value its block expects and the record
    is the one [extracted] describes. *)
Lemma resolveLocals_returned (Separator : ascii) (localsAsCty : Value)
    (rawLocals : gmap string Value) (r : ResolvedLocals) :
  isNilVal localsAsCty = false ->
  AsValueMap localsAsCty = Returned rawLocals ->
  resolveLocals Separator localsAsCty = Returned r ->
  conforming rawLocals = true /\ r = extracted Separator rawLocals.
Proof.
  intros Hnil Hmap Hr.
  pose proof (resolveLocals_run Separator localsAsCty rawLocals Hnil Hmap) as Hrun.
  destruct (conforming rawLocals).
  - split; [done|]. congruence.
  - destruct Hrun as [msg Hrun]. congruence.
Qed.

Lemma flag_field (Separator : ascii) (rawLocals : gmap string Value)
    (f : ReplaceField) :
  f ∈ flagFields ->
  field f (extracted Separator rawLocals)
  = BoolPointer (boolAt rawLocals (keyOf f)).
Proof.
  unfold flagFields. intros Hf.
  repeat (apply elem_of_cons in Hf as [->|Hf]); try reflexivity.
  by apply elem_of_nil in Hf.
Qed.

Lemma string_field (Separator : ascii) (rawLocals : gmap string Value)
    (f : ReplaceField) :
  f ∈ stringFields ->
  field f (extracted Separator rawLocals)
  = StringValue (stringAt rawLocals (keyOf f)).
Proof.
  unfold stringFields. intros Hf.
  repeat (apply elem_of_cons in Hf as [->|Hf]); try reflexivity.
  by apply elem_of_nil in Hf.
Qed.

(** C5, as the code has it. The boolean flags are tri-state: a flag whose
    key is absent is the nil pointer, and the merge then keeps the parent's
    value; a flag whose key holds a boolean is a pointer to it, and the
    merge then holds that boolean, so an explicit [false] overrides whatever
    the parent has where an unset flag does not. The string fields have two
    states: a key that holds the empty string leaves the same field as an
    absent key, and the merge then keeps the parent's value. *)
Theorem flags_tri_state_strings_two_state (Separator : ascii)
    (localsAsCty : Value) (rawLocals : gmap string Value) (r : ResolvedLocals) :
  isNilVal localsAsCty = false ->
  AsValueMap localsAsCty = Returned rawLocals ->
  resolveLocals Separator localsAsCty = Returned r ->
  (forall f, f ∈ flagFields ->
     (rawLocals !! keyOf f = None ->
      field f r = BoolPointer None
      /\ forall parent,
           field f (mergeResolvedLocals parent r) = field f parent)
     /\ (forall b, rawLocals !! keyOf f = Some (VBool b) ->
           field f r = BoolPointer (Some b)
           /\ forall parent,
                field f (mergeResolvedLocals parent r) = BoolPointer (Some b)))
  /\ (forall f, f ∈ stringFields ->
        (rawLocals !! keyOf f = None -> field f r = StringValue "")
        /\ (forall s, rawLocals !! keyOf f = Some (VString s) ->
              field f r = StringValue s)
        /\ (rawLocals !! keyOf f = None
            \/ rawLocals !! keyOf f = Some (VString "") ->
            forall parent,
              field f (mergeResolvedLocals parent r) = field f parent)).
Proof.
  intros Hnil Hmap Hr.
  destruct (resolveLocals_returned _ _ _ _ Hnil Hmap Hr) as [_ ->].
  split; intros f Hf.
  - pose proof (flag_field Separator rawLocals f Hf) as Hfield.
    unfold boolAt in Hfield. split.
    + intros Hkey. rewrite Hkey in Hfield. split; [done|].
      intros parent. by rewrite field_merge, Hfield.
    + intros b Hkey. rewrite Hkey in Hfield. split; [done|].
      intros parent. by rewrite field_merge, Hfield.
  - pose proof (string_field Separator rawLocals f Hf) as Hfield.
    unfold stringAt in Hfield. repeat split.
    + intros Hkey. by rewrite Hfield, Hkey.
    + intros s Hkey. by rewrite Hfield, Hkey.
    + intros Hkey parent. rewrite field_merge, Hfield.
      by destruct Hkey as [-> | ->].
Qed.

Lemma flags_tri_state_strings_two_state_witness :
  let localsAsCty :=
    VObject [("atlantis_workflow", VString ""); ("atlantis_skip", VBool false)] in
  let r := set_Skip (Some false) zeroLocals in
  let parent :=
    set_AutoPlan (Some true)
      (set_Skip (Some true) (set_AtlantisWorkflow "prod" zeroLocals)) in
  resolveLocals "/" localsAsCty = Returned r
  /\ field FSkip (mergeResolvedLocals parent r) = BoolPointer (Some false)
  /\ field FAutoPlan (mergeResolvedLocals parent r) = BoolPointer (Some true)
  /\ field FAtlantisWorkflow (mergeResolvedLocals parent r) = StringValue "prod".
Proof.
  intros localsAsCty r parent.
  assert (Hr : resolveLocals "/" localsAsCty = Returned r)
    by (vm_compute; reflexivity).
  destruct (flags_tri_state_strings_two_state "/" localsAsCty
              (list_to_map [("atlantis_workflow", VString "");
                            ("atlantis_skip", VBool false)]) r
              eq_refl eq_refl Hr) as [Hflags Hstrings].
  split; [exact Hr|]. split; [|split].
  - assert (Hin : FSkip ∈ flagFields) by (unfold flagFields; repeat constructor).
    destruct (Hflags FSkip Hin) as [_ Hset].
    destruct (Hset false) as [_ Hmerge]; [vm_compute; reflexivity|].
    apply Hmerge.
  - assert (Hin : FAutoPlan ∈ flagFields)
      by (unfold flagFields; repeat constructor).
    destruct (Hflags FAutoPlan Hin) as [Hunset _].
    destruct Hunset as [_ Hkeep]; [vm_compute; reflexivity|].
    rewrite Hkeep. reflexivity.
  - assert (Hin : FAtlantisWorkflow ∈ stringFields)
      by (unfold stringFields; repeat constructor).
    destruct (Hstrings FAtlantisWorkflow Hin) as (_ & _ & Hkeep).
    rewrite Hkeep; [reflexivity|].
    right. vm_compute. reflexivity.
Defined.

(** C5, as the claim has it, fails on the string fields: locals that set
    the workflow to the empty string extract to the same record as locals
    that do not mention it, the record with every field unset, and the merge
    keeps the parent's workflow in both cases. *)
Lemma explicit_empty_string_is_unset :
  resolveLocals "/" (VObject [("atlantis_workflow", VString "")])
  = resolveLocals "/" (VObject [])
  /\ resolveLocals "/" (VObject [("atlantis_workflow", VString "")])
     = Returned zeroLocals
  /\ isSet (field FAtlantisWorkflow zeroLocals) = false
  /\ AtlantisWorkflow
       (mergeResolvedLocals (set_AtlantisWorkflow "prod" zeroLocals) zeroLocals)
     = "prod".
Proof. vm_compute. repeat split; reflexivity. Qed.



(** C7. Reading the prior output returns an error exactly when the output
    file has contents and these fail to decode, and the error is the
    decoder's. A missing file is not an error: the call returns no
    configuration and no error, and logs one line. *)
Theorem readOldConfig_error_iff_malformed `{Output.PriorOutput} :
  (forall e,
     Output.err Output.readOldConfig = Some e
     <-> exists bytes,
           Output.fileAt Output.outputPath = Output.Contents bytes
           /\ (Output.Unmarshal bytes Output.zeroConfig).2 = Some e)
  /\ (Output.fileAt Output.outputPath = Output.Missing ->
      Output.readOldConfig
      = Output.mkReadOldConfig _ None None
          ["Could not find an old config file. Starting from scratch"]).
Proof.
  unfold Output.readOldConfig, Output.ReadFile. split.
  - intros e.
    destruct (Output.fileAt Output.outputPath) as [|reason|bytes]; simpl.
    + split; [done|]. by intros (bytes & Hbytes & _).
    + split; [done|]. by intros (bytes & Hbytes & _).
    + destruct (Output.Unmarshal bytes Output.zeroConfig) as [config [e'|]] eqn:Hyaml;
        simpl.
      * split.
        -- intros [= <-]. exists bytes. by rewrite Hyaml.
        -- intros (bytes' & [= <-] & Herr). rewrite Hyaml in Herr. done.
      * split; [done|].
        intros (bytes' & [= <-] & Herr). rewrite Hyaml in Herr. done.
  - by intros ->.
Qed.

Lemma readOldConfig_error_iff_malformed_witness :
  Output.readOldConfig (H:=Output.examplePriorOutput Output.Missing)
  = Output.mkReadOldConfig _ None None
      ["Could not find an old config file. Starting from scratch"]
  /\ Output.err
       (Output.readOldConfig
          (H:=Output.examplePriorOutput (Output.Contents [Byte.x3a; Byte.x0a])))
     = Some (ExternalError "yaml: did not find expected key").
Proof.
  split.
  - apply (proj2 (readOldConfig_error_iff_malformed
                    (H:=Output.examplePriorOutput Output.Missing))).
    reflexivity.
  - apply (proj1 (readOldConfig_error_iff_malformed
                    (H:=Output.examplePriorOutput
                          (Output.Contents [Byte.x3a; Byte.x0a])))).
    exists [Byte.x3a; Byte.x0a]. split; reflexivity.
Defined.

(** * Further properties of the code *)

(** ** The merge as an operation on records *)

(** Two records are equal when they agree on every replaced field and on
    the extra dependencies. *)
Lemma locals_eq (r r' : ResolvedLocals) :
  (forall f, field f r = field f r') ->
  ExtraAtlantisDependencies r = ExtraAtlantisDependencies r' ->
  r = r'.
Proof.
  intros Hfields Hextra. destruct r, r'. simpl in Hextra. subst.
  pose proof (Hfields FBranchProject) as [= ->].
  pose proof (Hfields FDeleteSourceBranchOnMergeProject) as [= ->].
  pose proof (Hfields FAtlantisWorkflow) as [= ->].
  pose proof (Hfields FTerraformVersion) as [= ->].
  pose proof (Hfields FAutoPlan) as [= ->].
  pose proof (Hfields FRepoLocking) as [= ->].
  pose proof (Hfields FSkip) as [= ->].
  pose proof (Hfields FMarkedProject) as [= ->].
  pose proof (Hfields FPlanRequirements) as [= ->].
  pose proof (Hfields FApplyRequirements) as [= ->].
  pose proof (Hfields FImportRequirements) as [= ->].
  reflexivity.
Qed.

Lemma zero_not_set (f : ReplaceField) : isSet (field f zeroLocals) = false.
Proof. by destruct f. Qed.

(** X1. Merging is associative: merging a grandparent with a parent and
    then with a child gives the same record as merging the grandparent with
    the merge of parent and child. *)
Theorem mergeResolvedLocals_assoc (a b c : ResolvedLocals) :
  mergeResolvedLocals (mergeResolvedLocals a b) c
  = mergeResolvedLocals a (mergeResolvedLocals b c).
Proof.
  apply locals_eq.
  - intros f. rewrite !field_merge.
    destruct (isSet (field f c)) eqn:Hc; [by rewrite Hc|].
    by destruct (isSet (field f b)) eqn:Hb; rewrite ?Hb.
  - by rewrite !extra_merge, app_assoc.
Qed.

(** X2. The empty record is a right identity of the merge: a child that
    declares nothing leaves the parent record as it is. *)
Theorem mergeResolvedLocals_zero_right (parent : ResolvedLocals) :
  mergeResolvedLocals parent zeroLocals = parent.
Proof.
  apply locals_eq.
  - intros f. by rewrite field_merge, zero_not_set.
  - rewrite extra_merge. apply app_nil_r.
Qed.

(** X3. The merge never unsets a field: a replaced field of the merge is
    set exactly when it is set in the parent or in the child. *)
Theorem mergeResolvedLocals_set_union (parent child : ResolvedLocals)
    (f : ReplaceField) :
  isSet (field f (mergeResolvedLocals parent child))
  = isSet (field f parent) || isSet (field f child).
Proof.
  rewrite field_merge.
  destruct (isSet (field f child)) eqn:Hc.
  - by rewrite Hc, orb_true_r.
  - by rewrite orb_false_r.
Qed.

(** ** The extractor on arbitrary locals *)

(** What a returning call of [resolveLocals] was given. *)
Lemma resolveLocals_cases (Separator : ascii) (localsAsCty : Value)
    (r : ResolvedLocals) :
  resolveLocals Separator localsAsCty = Returned r ->
  (isNilVal localsAsCty = true /\ r = zeroLocals)
  \/ exists rawLocals,
       isNilVal localsAsCty = false
       /\ AsValueMap localsAsCty = Returned rawLocals
       /\ conforming rawLocals = true
       /\ r = extracted Separator rawLocals.
Proof.
  intros Hr. destruct (isNilVal localsAsCty) eqn:Hnil.
  - left. split; [done|].
    rewrite resolveLocals_blocks, Hnil in Hr. by injection Hr.
  - right. destruct (AsValueMap localsAsCty) as [rawLocals|msg] eqn:Hmap.
    + exists rawLocals.
      destruct (resolveLocals_returned _ _ _ _ Hnil Hmap Hr). done.
    + rewrite resolveLocals_blocks, Hnil, Hmap in Hr. done.
Qed.

(** X4. On locals that are a map, [resolveLocals] returns exactly when
    every recognised key that is present holds the kind of value its block
    expects (a string, a boolean, a collection of strings), and then each
    field of the record is read off its key alone; on any other map it
    panics. *)
Theorem resolveLocals_returns_iff_conforming (Separator : ascii)
    (localsAsCty : Value) (rawLocals : gmap string Value) :
  isNilVal localsAsCty = false ->
  AsValueMap localsAsCty = Returned rawLocals ->
  (forall r,
     resolveLocals Separator localsAsCty = Returned r
     <-> conforming rawLocals = true /\ r = extracted Separator rawLocals)
  /\ (conforming rawLocals = false
      <-> exists msg, resolveLocals Separator localsAsCty = Panic msg).
Proof.
  intros Hnil Hmap.
  pose proof (resolveLocals_run Separator localsAsCty rawLocals Hnil Hmap) as Hrun.
  destruct (conforming rawLocals).
  - split.
    + intros r. rewrite Hrun. split; [by intros [= <-] | by intros [_ ->]].
    + split; [done|]. intros [msg Hpanic]. congruence.
  - destruct Hrun as [msg Hrun]. split.
    + intros r. rewrite Hrun. split; [done | by intros [? _]].
    + split; [eauto | done].
Qed.

Lemma resolveLocals_returns_iff_conforming_witness :
  let attrs := [("atlantis_skip", VString "yes")] in
  conforming (list_to_map attrs) = false
  /\ exists msg, resolveLocals "/" (VObject attrs) = Panic msg.
Proof.
  intros attrs.
  assert (Hconf : conforming (list_to_map attrs) = false)
    by (vm_compute; reflexivity).
  split; [exact Hconf|].
  exact (proj1 (proj2 (resolveLocals_returns_iff_conforming "/" (VObject attrs)
                         (list_to_map attrs) eq_refl eq_refl)) Hconf).
Defined.

(** X5. Keys that [resolveLocals] does not look up are ignored: adding an
    attribute under any other name to the locals changes neither the record
    returned nor whether the call panics. *)
Theorem resolveLocals_ignores_other_keys (Separator : ascii) (key : string)
    (v : Value) (attrs : list (string * Value)) :
  key ∉ recognisedKeys ->
  resolveLocals Separator (VObject ((key, v) :: attrs))
  = resolveLocals Separator (VObject attrs).
Proof.
  intros Hkey. rewrite !resolveLocals_blocks.
  cbn [isNilVal AsValueMap mbind outcome_bind].
  change (list_to_map ((key, v) :: attrs) : gmap string Value)
    with (<[key:=v]> (list_to_map attrs : gmap string Value)).
  unfold recognisedKeys in Hkey. rewrite !not_elem_of_cons in Hkey.
  destruct_and!.
  unfold stringBlock, boolBlock, requirementsBlock, dependenciesBlock.
  rewrite !lookup_insert_ne by done. reflexivity.
Qed.

Lemma resolveLocals_ignores_other_keys_witness :
  resolveLocals "/" (VObject [("aws_region", VNumber 3);
                              ("atlantis_workflow", VString "prod")])
  = resolveLocals "/" (VObject [("atlantis_workflow", VString "prod")]).
Proof.
  apply resolveLocals_ignores_other_keys.
  unfold recognisedKeys. rewrite !not_elem_of_cons.
  repeat split; try discriminate. apply not_elem_of_nil.
Defined.

Lemma stringsOf_strings (strs : list string) :
  stringsOf (VList (VString <$> strs)) = Some strs.
Proof.
  unfold stringsOf. cbn [ElementIterator].
  induction strs as [|s strs IH]; [done|].
  cbn [fmap list_fmap mapM]. cbn [fmap list_fmap] in IH. rewrite IH. done.
Qed.

(** X6. A declared list is extracted element by element in its order:
    a requirement key that holds a list of strings gives the non-nil slice
    of exactly these strings, and the extra dependencies key gives these
    strings, each passed through [filepath.ToSlash]. *)
Theorem resolveLocals_keeps_list_order (Separator : ascii)
    (localsAsCty : Value) (rawLocals : gmap string Value) (r : ResolvedLocals) :
  isNilVal localsAsCty = false ->
  AsValueMap localsAsCty = Returned rawLocals ->
  resolveLocals Separator localsAsCty = Returned r ->
  (forall f strs,
     f ∈ requirementFields ->
     rawLocals !! keyOf f = Some (VList (VString <$> strs)) ->
     field f r = StringSlice (Some strs))
  /\ (forall strs,
        rawLocals !! "extra_atlantis_dependencies"
        = Some (VList (VString <$> strs)) ->
        ExtraAtlantisDependencies r = ToSlash Separator <$> strs).
Proof.
  intros Hnil Hmap Hr.
  destruct (resolveLocals_returned _ _ _ _ Hnil Hmap Hr) as [_ ->].
  split.
  - intros f strs Hf Hkey. unfold requirementFields in Hf.
    repeat (apply elem_of_cons in Hf as [->|Hf]);
      try (by apply elem_of_nil in Hf);
      cbn [field keyOf extracted PlanRequirements ApplyRequirements
             ImportRequirements] in *;
      unfold requirementsAt; by rewrite Hkey, stringsOf_strings.
  - intros strs Hkey. cbn [extracted ExtraAtlantisDependencies].
    unfold dependenciesAt. by rewrite Hkey, stringsOf_strings.
Qed.

Lemma resolveLocals_keeps_list_order_witness :
  let attrs :=
    [("atlantis_apply_requirements",
      VList [VString "mergeable"; VString "approved"; VString "mergeable"]);
     ("extra_atlantis_dependencies",
      VList [VString "..\shared"; VString "../other"])] in
  let r := set_ExtraAtlantisDependencies ["../shared"; "../other"]
             (set_ApplyRequirements
                (Some ["mergeable"; "approved"; "mergeable"]) zeroLocals) in
  resolveLocals "\" (VObject attrs) = Returned r
  /\ field FApplyRequirements r
     = StringSlice (Some ["mergeable"; "approved"; "mergeable"])
  /\ ExtraAtlantisDependencies r
     = ToSlash "\" <$> ["..\shared"; "../other"].
Proof.
  intros attrs r.
  assert (Hr : resolveLocals "\" (VObject attrs) = Returned r)
    by (vm_compute; reflexivity).
  destruct (resolveLocals_keeps_list_order "\" (VObject attrs)
              (list_to_map attrs) r eq_refl eq_refl Hr) as [Hreqs Hdeps].
  split; [exact Hr|]. split.
  - apply Hreqs; [unfold requirementFields; repeat constructor|].
    vm_compute. reflexivity.
  - apply Hdeps. vm_compute. reflexivity.
Defined.

Lemma replaceSeparator_no_separator (Separator : ascii) (path : string) :
  Separator <> "/"%char ->
  Separator ∉ bytesOf (replaceSeparator Separator path).
Proof.
  intros Hsep. unfold bytesOf.
  induction path as [|c path IH]; cbn [replaceSeparator list_ascii_of_string].
  - apply not_elem_of_nil.
  - apply not_elem_of_cons. split; [|done].
    destruct (Ascii.eqb_spec c Separator); congruence.
Qed.

(** X7. On a platform whose separator is not the slash, no extracted
    dependency path holds the platform's separator: every one has been
    replaced by a slash. *)
Theorem extracted_dependencies_have_no_separator (Separator : ascii)
    (localsAsCty : Value) (r : ResolvedLocals) (path : string) :
  Separator <> "/"%char ->
  resolveLocals Separator localsAsCty = Returned r ->
  path ∈ ExtraAtlantisDependencies r ->
  Separator ∉ bytesOf path.
Proof.
  intros Hsep Hr Hpath.
  destruct (resolveLocals_cases _ _ _ Hr) as [[_ ->]|(m & _ & _ & _ & ->)].
  - by apply elem_of_nil in Hpath.
  - cbn [extracted ExtraAtlantisDependencies] in Hpath.
    unfold dependenciesAt in Hpath.
    destruct (m !! "extra_atlantis_dependencies") as [collection|];
      [|by apply elem_of_nil in Hpath].
    apply list_elem_of_fmap in Hpath as (declared & -> & _).
    unfold ToSlash. destruct (Ascii.eqb_spec Separator "/"%char); [done|].
    by apply replaceSeparator_no_separator.
Qed.

Lemma extracted_dependencies_have_no_separator_witness :
  "\"%char ∉ bytesOf "../shared/vpc".
Proof.
  apply (extracted_dependencies_have_no_separator "\"
           (VObject [("extra_atlantis_dependencies",
                      VList [VString "..\shared\vpc"])])
           (set_ExtraAtlantisDependencies ["../shared/vpc"] zeroLocals)).
  - discriminate.
  - vm_compute. reflexivity.
  - repeat constructor.
Defined.

(** ** Parsing a file *)

Lemma list_ascii_of_string_app (s1 s2 : string) :
  list_ascii_of_string (s1 ++ s2)
  = (list_ascii_of_string s1 ++ list_ascii_of_string s2)%list.
Proof. induction s1 as [|c s1 IH]; simpl; [done | by rewrite IH]. Qed.

Lemma Ext_json (Separator : ascii) (base : string) :
  Separator = "/"%char \/ Separator = "\"%char ->
  Ext Separator (base ++ ".json") = ".json".
Proof.
  intros Hsep. unfold Ext.
  rewrite list_ascii_of_string_app, rev_app_distr.
  destruct Hsep as [-> | ->]; reflexivity.
Qed.

Section ParsingFacts.

Context `{Collaborators}.

(** X8. [parseHcl] never returns a file together with an error, and its
    error is either the parser's diagnostics, among which there is an
    error, or the parser's panic, recovered and reported with the name of
    the file. *)
Theorem parseHcl_error_has_no_file (hcl filename : string)
    (file : option File) (e : error) :
  parseHcl hcl filename = (file, Some e) ->
  file = None
  /\ ((exists recovered, e = PanicWhileParsingConfig recovered filename)
      \/ (exists diags, e = DiagnosticsError diags /\ HasErrors diags = true)).
Proof.
  unfold parseHcl.
  destruct (if String.eqb (Ext Separator filename) ".json"
            then ParseJSON hcl filename else ParseHCL hcl filename)
    as [[parsed diags]|recovered].
  - destruct (HasErrors diags) eqn:Herrors; intros [= <- <-].
    split; [done|]. right. eauto.
  - intros [= <- <-]. split; [done|]. left. eauto.
Qed.

(** X9. On Unix and on Windows a file whose name ends in [.json] goes to
    the JSON parser; the HCL parser is not consulted. *)
Theorem parseHcl_json_extension (hcl base : string) :
  Separator = "/"%char \/ Separator = "\"%char ->
  parseHcl hcl (base ++ ".json")
  = match ParseJSON hcl (base ++ ".json") with
    | Panic recovered =>
        (None, Some (PanicWhileParsingConfig recovered (base ++ ".json")))
    | Returned (file, parseDiagnostics) =>
        if HasErrors parseDiagnostics
        then (None, Some (DiagnosticsError parseDiagnostics))
        else (file, None)
    end.
Proof.
  intros Hsep. unfold parseHcl. by rewrite (Ext_json _ _ Hsep).
Qed.

(** ** Resolving a module *)

(** X10. An error of reading, parsing or decoding the module's own file
    ends [parseLocals] at once, before any include is looked at, and is
    returned as it is; and whenever [parseLocals] returns an error, the
    record that comes with it is the empty one. *)
Theorem parseLocals_own_error (path : string)
    (includeFromChild : option IncludeConfig) :
  (forall e,
     (decodeFile path includeFromChild).2 = Some e ->
     parseLocals path includeFromChild = Returned (zeroLocals, Some e))
  /\ (forall r e,
        parseLocals path includeFromChild = Returned (r, Some e) ->
        r = zeroLocals).
Proof.
  split.
  - intros e He. rewrite parseLocals_decoded.
    destruct (decodeFile path includeFromChild) as [[l t] [err|]];
      simpl in He; [|done].
    by injection He as ->.
  - intros r e Hr. by destruct (parseLocals_error path includeFromChild r e Hr).
Qed.

(** X11. The extra dependencies of a resolved module are those of its
    directly declared includes, in the order the includes are declared,
    followed by the module's own: nothing is dropped, reordered or
    de-duplicated along the way. This is stated for includes whose files
    read, parse and decode. *)
Theorem parseLocals_accumulates_dependencies (path : string)
    (localsAsCty : option Value) (tracked : TrackInclude)
    (parents : list ResolvedLocals) (childLocals : ResolvedLocals) :
  decodeFile path None = (localsAsCty, Some tracked, None) ->
  Forall (fun includeConfig =>
            (decodeFile (Path includeConfig) (Some includeConfig)).2 = None)
         (CurrentList tracked) ->
  mapM (fun includeConfig =>
          extractedFrom (Path includeConfig) (Some includeConfig))
       (CurrentList tracked) = Returned parents ->
  extractedFrom path None = Returned childLocals ->
  exists r,
    parseLocals path None = Returned (r, None)
    /\ ExtraAtlantisDependencies r
       = (concat (ExtraAtlantisDependencies <$> parents)
            ++ ExtraAtlantisDependencies childLocals)%list.
Proof.
  intros Hdecode Hincludes Hparents Hchild.
  unfold extractedFrom in Hchild. rewrite Hdecode in Hchild.
  cbn [fst] in Hchild.
  rewrite parseLocals_decoded, Hdecode. cbn [followedIncludes].
  rewrite foldM_includes, (mapM_ownRecord_decoded _ Hincludes), Hparents.
  cbn [mbind outcome_bind mret outcome_ret].
  destruct (deref localsAsCty) as [cty|]; [|done].
  cbn [mbind outcome_bind] in *. rewrite Hchild.
  eexists. split; [reflexivity|].
  by rewrite extra_merge, extra_fold_merge.
Qed.

(** X12. [parseLocals] recovers from no panic of the extraction: when the
    module's own file decodes but extracting its locals panics (a nil
    locals pointer, locals that are no map, a recognised key that holds
    the wrong kind of value), [parseLocals] panics, whatever its includes
    hold. *)
Theorem parseLocals_extraction_panic (path : string)
    (includeFromChild : option IncludeConfig) (msg : string) :
  (decodeFile path includeFromChild).2 = None ->
  extractedFrom path includeFromChild = Panic msg ->
  exists msg', parseLocals path includeFromChild = Panic msg'.
Proof.
  intros Hdecode Hpanic. unfold extractedFrom in Hpanic.
  rewrite parseLocals_decoded.
  destruct (decodeFile path includeFromChild) as [[l t] [err|]];
    simpl in Hdecode; [done|].
  cbn [fst] in Hpanic.
  destruct (foldM _ _ _) as [merged|msg']; [|by eexists].
  cbn [mbind outcome_bind].
  destruct (deref l) as [cty|msg']; [|by eexists].
  cbn [mbind outcome_bind] in *. rewrite Hpanic. by eexists.
Qed.

End ParsingFacts.

Lemma parseHcl_error_has_no_file_witness :
  let world := servedFrom true brokenParentFs in
  parseHcl (H:=world) "root.hcl" "root.hcl"
  = (None, Some (DiagnosticsError [mkDiagnostic DiagError "Invalid expression"]))
  /\ HasErrors [mkDiagnostic DiagError "Invalid expression"] = true.
Proof.
  intros world.
  assert (Hrun : parseHcl (H:=world) "root.hcl" "root.hcl"
                 = (None, Some (DiagnosticsError
                                  [mkDiagnostic DiagError "Invalid expression"])))
    by reflexivity.
  split; [exact Hrun|].
  destruct (parseHcl_error_has_no_file (H:=world) _ _ _ _ Hrun)
    as [_ [[recovered Hrec]|(diags & Hdiags & Herrors)]].
  - discriminate.
  - by injection Hdiags as <-.
Defined.

Lemma parseHcl_json_extension_witness :
  let world := servedFrom true chainFs in
  parseHcl (H:=world) "{}" "a/terragrunt.hcl.json"
  = (None,
     Some (PanicWhileParsingConfig "unexpected end of JSON input"
             "a/terragrunt.hcl.json")).
Proof.
  intros world.
  exact (parseHcl_json_extension (H:=world) "{}" "a/terragrunt.hcl"
           (or_introl eq_refl)).
Defined.

Lemma parseLocals_own_error_witness :
  let world := servedFrom true brokenParentFs in
  parseLocals (H:=world) "root.hcl" None
  = Returned (zeroLocals,
              Some (DiagnosticsError [mkDiagnostic DiagError "Invalid expression"])).
Proof.
  intros world.
  apply (proj1 (parseLocals_own_error (H:=world) "root.hcl" None)).
  reflexivity.
Defined.

Lemma parseLocals_accumulates_dependencies_witness :
  let world := servedFrom true siblingsFs in
  exists r,
    parseLocals (H:=world) "app/terragrunt.hcl" None = Returned (r, None)
    /\ ExtraAtlantisDependencies r = ["../shared"; "../other"].
Proof.
  intros world.
  destruct (parseLocals_accumulates_dependencies (H:=world)
              "app/terragrunt.hcl"
              (Some (VObject [("atlantis_plan_requirements", VList []);
                              ("extra_atlantis_dependencies",
                               VList [VString "../other"])]))
              (mkTrackInclude [includeOf "naming.hcl"; includeOf "state.hcl"] None)
              [set_ExtraAtlantisDependencies ["../shared"]
                 (set_TerraformVersion "1.5.0"
                    (set_AtlantisWorkflow "naming" zeroLocals));
               set_PlanRequirements (Some ["approved"])
                 (set_AtlantisWorkflow "state" zeroLocals)]
              (set_ExtraAtlantisDependencies ["../other"]
                 (set_PlanRequirements (Some []) zeroLocals)))
    as (r & Hr & Hdeps).
  - reflexivity.
  - repeat (constructor; [vm_compute; reflexivity|]). constructor.
  - vm_compute. reflexivity.
  - vm_compute. reflexivity.
  - exists r. split; [exact Hr|]. rewrite Hdeps. reflexivity.
Defined.

Lemma parseLocals_extraction_panic_witness :
  let world := servedFrom true stringFlagFs in
  exists msg, parseLocals (H:=world) "app/terragrunt.hcl" None = Panic msg.
Proof.
  intros world.
  apply (parseLocals_extraction_panic (H:=world) "app/terragrunt.hcl" None
           "not bool").
  - reflexivity.
  - vm_compute. reflexivity.
Defined.

(** ** Reading the prior output *)

(** X13. A call of [readOldConfig] ends in one of three ways and tells
    them apart: when the output file cannot be read, be it missing or
    unreadable, it returns no configuration and no error and logs one line;
    when the file is read and does not decode, it returns the decoder's
    error alone; when it decodes, it returns the configuration the decoder
    filled in, starting from the zero configuration, and no error. A
    configuration and an error never come together. *)
Theorem readOldConfig_outcomes `{Output.PriorOutput} :
  match Output.fileAt Output.outputPath with
  | Output.Missing | Output.Unreadable _ =>
      Output.readOldConfig
      = Output.mkReadOldConfig _ None None
          ["Could not find an old config file. Starting from scratch"]
  | Output.Contents bytes =>
      match Output.Unmarshal bytes Output.zeroConfig with
      | (_, Some e) =>
          Output.readOldConfig = Output.mkReadOldConfig _ None (Some e) []
      | (config, None) =>
          Output.readOldConfig = Output.mkReadOldConfig _ (Some config) None []
      end
  end
  /\ (Output.config Output.readOldConfig = None
      \/ Output.err Output.readOldConfig = None).
Proof.
  unfold Output.readOldConfig, Output.ReadFile.
  destruct (Output.fileAt Output.outputPath) as [|reason|bytes]; simpl;
    [by split; [|left].. |].
  destruct (Output.Unmarshal bytes Output.zeroConfig) as [config [e|]]; simpl.
  - split; [done | by left].
  - split; [done | by right].
Qed.
